(** * The seasonal display controller of chudesnov.tech

    A shallow embedding of [src/season.js] (the season classifier) and of
    [src/snow.js] (the snowfall orchestrator), with the properties the
    specification states about them.

    JavaScript values are the primitive values the two files handle,
    [undefined], [null], booleans, numbers (IEEE 754 doubles) and strings,
    and every other value (an object, an array, a function, a symbol, a
    BigInt), which is modelled by what the two files can observe of it.  An
    options argument is an object, read through the properties the library
    documents.  Strings are sequences of code units below 256.  A call
    either completes normally or throws. *)

From Stdlib Require Import ZArith List Bool Ascii String Lia Floats.
From stdpp Require Import base gmap strings.
Import ListNotations.

Open Scope string_scope.
Open Scope Z_scope.

(** ** JavaScript values and completions *)

Module JS.

(** What a call can throw: a [TypeError], or any other exception (one that
    the conversion code of an object throws, a [SyntaxError] of the
    selector engine). *)
Inductive Error : Type :=
| TypeError
| OtherError.

(** The outcome of evaluating a call: a value, or a thrown error. *)
Inductive Completion (A : Type) : Type :=
| Normal (a : A)
| Throw (e : Error).
Arguments Normal {A} a.
Arguments Throw {A} e.

(** What the two files can observe of a value that is none of the five
    primitives below: whether it is truthy (an object is, the BigInt zero
    is not); what converting it to a property key gives (the key, [None]
    for a symbol, or the exception its conversion throws); and what calling
    its [toUpperCase] method gives (a [TypeError] when it has none, the
    primitive string the method returns, [None] when it returns anything
    else, or the exception the method throws). *)
Record Observed : Type := {
  isTruthy : bool;
  asKey : Completion (option string);
  upperCased : Completion (option string)
}.

Inductive Value : Type :=
| Undefined
| Null
| Boolean (b : bool)
| Num (x : float)
| Str (s : string)
| Other (o : Observed).

Definition bind {A B : Type} (c : Completion A) (k : A -> Completion B)
  : Completion B :=
  match c with
  | Normal a => k a
  | Throw e => Throw e
  end.

(** [ToBoolean]: the falsy primitives are [undefined], [null], [false],
    [+0], [-0], [NaN] and the empty string. *)
Definition truthy (v : Value) : bool :=
  match v with
  | Undefined | Null => false
  | Boolean b => b
  | Num x => negb (PrimFloat.eqb x 0%float) && PrimFloat.eqb x x
  | Str s => negb (String.eqb s "")
  | Other o => isTruthy o
  end.

(** [v === s] for a string literal [s]. *)
Definition strictEqualsString (v : Value) (s : string) : bool :=
  match v with
  | Str t => String.eqb t s
  | _ => false
  end.

(** [String.prototype.toUpperCase] on the ASCII letters, which is the whole
    of it on a string of ASCII characters; every other code unit is left as
    it is. *)
Definition upperAscii (c : ascii) : ascii :=
  let n := nat_of_ascii c in
  if (Nat.leb 97 n && Nat.leb n 122)%bool then ascii_of_nat (n - 32) else c.

Fixpoint toUpperCase (s : string) : string :=
  match s with
  | EmptyString => EmptyString
  | String c r => String (upperAscii c) (toUpperCase r)
  end.

(** [Array.prototype.includes] on an array of strings. *)
Definition includes (l : list string) (s : string) : bool :=
  existsb (String.eqb s) l.

(** [String.prototype.split] with a one-character separator. *)
Fixpoint splitAux (sep : ascii) (s : string) (cur : string) : list string :=
  match s with
  | EmptyString => [cur]
  | String c r =>
      if Ascii.eqb c sep then cur :: splitAux sep r ""
      else splitAux sep r (String.append cur (String c ""))
  end.

Definition split (sep : ascii) (s : string) : list string :=
  splitAux sep s "".

(** Numbers that arise from the calendar arithmetic: an integer, or [NaN]
    ([None]).  All the integers involved are far below 2^53, so the double
    arithmetic of the source is exact on them. *)
Definition IntOrNaN : Type := option Z.

Definition isDigit (c : ascii) : bool :=
  let n := nat_of_ascii c in (Nat.leb 48 n && Nat.leb n 57)%bool.

Fixpoint digitsValue (s : string) (acc : Z) : IntOrNaN :=
  match s with
  | EmptyString => Some acc
  | String c r =>
      if isDigit c
      then digitsValue r (acc * 10 + (Z.of_nat (nat_of_ascii c) - 48))
      else None
  end.

(** [Number(s)] on a string of decimal digits (the empty string converts to
    0); the model gives [NaN] to every other string, the month-day tables
    hold digits only. *)
Definition Number (s : string) : IntOrNaN := digitsValue s 0.

Definition mul (a b : IntOrNaN) : IntOrNaN :=
  match a, b with
  | Some x, Some y => Some (x * y)
  | _, _ => None
  end.

Definition add (a b : IntOrNaN) : IntOrNaN :=
  match a, b with
  | Some x, Some y => Some (x + y)
  | _, _ => None
  end.

(** [a <= b]: false as soon as one side is [NaN]. *)
Definition le (a b : IntOrNaN) : bool :=
  match a, b with
  | Some x, Some y => x <=? y
  | _, _ => false
  end.

(** [a >= b]. *)
Definition ge (a b : IntOrNaN) : bool := le b a.

(** Reading a property of a plain object whose own properties are the
    pairs of [obj]: an own property, a member inherited from
    [Object.prototype], or [undefined]. *)
Inductive Lookup (A : Type) : Type :=
| Own (a : A)
| Inherited
| Missing.
Arguments Own {A} a.
Arguments Inherited {A}.
Arguments Missing {A}.

Definition objectPrototypeKeys : list string :=
  [ "constructor"; "__proto__"; "hasOwnProperty"; "isPrototypeOf";
    "propertyIsEnumerable"; "toLocaleString"; "toString"; "valueOf";
    "__defineGetter__"; "__defineSetter__"; "__lookupGetter__";
    "__lookupSetter__" ].

Fixpoint ownProperty {A : Type} (obj : list (string * A)) (key : string)
  : option A :=
  match obj with
  | [] => None
  | (k, v) :: rest => if String.eqb k key then Some v else ownProperty rest key
  end.

Definition getProperty {A : Type} (obj : list (string * A)) (key : string)
  : Lookup A :=
  match ownProperty obj key with
  | Some v => Own v
  | None => if includes objectPrototypeKeys key then Inherited else Missing
  end.

(** The property key a value is converted to when it indexes an object.
    A number is keyed by its decimal rendering and a symbol by itself,
    neither of which is the name of a property of the objects modelled
    here: they have no key.  Converting an object runs its own code. *)
Definition propertyKey (v : Value) : Completion (option string) :=
  match v with
  | Undefined => Normal (Some "undefined")
  | Null => Normal (Some "null")
  | Boolean true => Normal (Some "true")
  | Boolean false => Normal (Some "false")
  | Num _ => Normal None
  | Str s => Normal (Some s)
  | Other o => asKey o
  end.

(** ASCII whitespace: tab, line feed, form feed, carriage return, space. *)
Definition isAsciiWhitespace (c : ascii) : bool :=
  let n := nat_of_ascii c in
  (Nat.eqb n 9 || Nat.eqb n 10 || Nat.eqb n 12 || Nat.eqb n 13
   || Nat.eqb n 32)%bool.

(** The pieces of a string between its whitespace characters, the empty
    ones included. *)
Fixpoint tokens (s : string) : list string :=
  match s with
  | EmptyString => [EmptyString]
  | String c r =>
      if isAsciiWhitespace c then EmptyString :: tokens r
      else
        match tokens r with
        | w :: ws => String c w :: ws
        | [] => [String c EmptyString]
        end
  end.

Definition nonEmpty (s : string) : bool := negb (String.eqb s "").

Definition words (s : string) : list string :=
  List.filter nonEmpty (tokens s).

Fixpoint join (ws : list string) : string :=
  match ws with
  | [] => EmptyString
  | [w] => w
  | w :: rest => String.append w (String " " (join rest))
  end.

(** Strip and collapse ASCII whitespace: every run of whitespace becomes
    one space, and the whitespace at both ends goes. *)
Definition stripAndCollapse (s : string) : string := join (words s).

End JS.

Notation "'let*' x ':=' c 'in' k" := (JS.bind c (fun x => k))
  (at level 10, x name, c at level 100, k at level 200).

(** ** season.js *)

Module Season.
Import JS.

Definition southernCountryCodes : list string :=
  [ (* Africa *)
    "AO"; "BW"; "BI"; "KM"; "LS"; "MG"; "MW"; "MU"; "MZ"; "NA"; "RW"; "SC";
    "ZA"; "SZ"; "TZ"; "ZM"; "ZW";
    "CD"; "GA"; "CG";
    (* Asia *)
    "TL"; "ID";
    (* Australia *)
    "AU"; "PG";
    (* South America *)
    "AR"; "BO"; "CL"; "PY"; "PE"; "UY"; "BR"; "EC";
    (* Pacific Ocean *)
    "AS"; "CK"; "FJ"; "PF"; "NR"; "NC"; "NZ"; "NU"; "PN"; "WS"; "SB"; "TK";
    "TO"; "TV"; "VU"; "WF";
    (* Atlantic Ocean *)
    "FK"; "SH";
    (* Indian Ocean *)
    "IO"; "YT"; "RE";
    (* Southern Ocean (some islands) *)
    "AQ"; "BV"; "TF"; "GS" ].

(** The options object, by the properties the library documents; an absent
    property reads as [Undefined]. *)
Record Options : Type := {
  calendarType : Value;
  seasonType : Value;
  hemisphere : Value;
  countryCode : Value;
  languageCulture : Value;
  latitude : Value;
  longitude : Value
}.

(** The empty object [{}]. *)
Definition noOptions : Options :=
  {| calendarType := Undefined; seasonType := Undefined;
     hemisphere := Undefined; countryCode := Undefined;
     languageCulture := Undefined; latitude := Undefined;
     longitude := Undefined |}.

(** [isSouthernCountry]: a truthy boolean or number has no [toUpperCase]
    method, and calling it throws; what the method of another value returns
    is looked up as it is, and only a primitive string can be found. *)
Definition isSouthernCountry (countryCode : Value) : Completion bool :=
  if negb (truthy countryCode) then Normal false
  else
    match countryCode with
    | Str s => Normal (includes southernCountryCodes (toUpperCase s))
    | Other o =>
        let* upper := upperCased o in
        Normal match upper with
               | Some s => includes southernCountryCodes s
               | None => false
               end
    | _ => Throw TypeError
    end.

(** [inferHemisphere].  The first test returns [hemisphere] itself, which
    is then one of the two strings it was compared with. *)
Definition inferHemisphere (options : Options) : Completion string :=
  if strictEqualsString (hemisphere options) "Northern" then Normal "Northern"
  else if strictEqualsString (hemisphere options) "Southern"
  then Normal "Southern"
  else
    match latitude options, longitude options with
    | Num lat, Num _ =>
        (* typeof latitude === 'number' && typeof longitude === 'number' *)
        (* Simplified: lat >= 0 => Northern *)
        Normal (if PrimFloat.leb 0%float lat then "Northern" else "Southern")
    | _, _ =>
        if truthy (countryCode options)
        then
          let* southern := isSouthernCountry (countryCode options) in
          if southern then Normal "Southern"
          else (* Default to Northern *) Normal "Northern"
        else (* Default to Northern *) Normal "Northern"
    end.

(** A [Date], by the local-time fields its getters read; [InvalidDate] is
    the date whose time value is [NaN]. *)
Record DateFields : Type := {
  fullYear : Z;
  monthIndex : Z;   (* 0 .. 11 *)
  dayOfMonth : Z;   (* 1 .. 31 *)
  hours : Z;
  minutes : Z;
  seconds : Z;
  milliseconds : Z
}.

Inductive Date : Type :=
| InvalidDate
| ValidDate (f : DateFields).

Definition getMonth (date : Date) : IntOrNaN :=
  match date with
  | InvalidDate => None
  | ValidDate f => Some (monthIndex f)
  end.

Definition getDate (date : Date) : IntOrNaN :=
  match date with
  | InvalidDate => None
  | ValidDate f => Some (dayOfMonth f)
  end.

(** Destructuring [[a, b] = parts.map(Number)]: a missing element is
    [undefined], which the arithmetic below turns into [NaN]. *)
Definition element (i : nat) (parts : list string) : IntOrNaN :=
  match nth_error (map Number parts) i with
  | Some n => n
  | None => None
  end.

Definition isDateInRange (date : Date) (start end_ : string) : bool :=
  let month := add (getMonth date) (Some 1) in (* JS months 0-11 *)
  let day := getDate date in
  let sMonth := element 0 (split "-" start) in
  let sDay := element 1 (split "-" start) in
  let eMonth := element 0 (split "-" end_) in
  let eDay := element 1 (split "-" end_) in
  let startNum := add (mul sMonth (Some 100)) sDay in
  let endNum := add (mul eMonth (Some 100)) eDay in
  let curNum := add (mul month (Some 100)) day in
  if le startNum endNum
  then (ge curNum startNum && le curNum endNum)%bool
  else
    (* Range crosses year boundary *)
    (ge curNum startNum || le curNum endNum)%bool.

Record DateRange : Type := { start : string; end_ : string }.

(** Season definitions for each calendar type and hemisphere, as the
    ordered own properties of the nested object literals. *)
Definition seasonDefinitions
  : list (string * list (string * list (string * DateRange))) :=
  [ ("Astronomical",
      [ ("Northern",
          [ ("Spring", {| start := "03-21"; end_ := "06-20" |});
            ("Summer", {| start := "06-21"; end_ := "09-20" |});
            ("Autumn", {| start := "09-21"; end_ := "12-20" |});
            ("Winter", {| start := "12-21"; end_ := "03-20" |}) ]);
        ("Southern",
          [ ("Spring", {| start := "09-21"; end_ := "12-20" |});
            ("Summer", {| start := "12-21"; end_ := "03-20" |});
            ("Autumn", {| start := "03-21"; end_ := "06-20" |});
            ("Winter", {| start := "06-21"; end_ := "09-20" |}) ]) ]);
    ("Meteorological",
      [ ("Northern",
          [ ("Spring", {| start := "03-01"; end_ := "05-31" |});
            ("Summer", {| start := "06-01"; end_ := "08-31" |});
            ("Autumn", {| start := "09-01"; end_ := "11-30" |});
            ("Winter", {| start := "12-01"; end_ := "02-29" |}) ]);
        ("Southern",
          [ ("Spring", {| start := "09-01"; end_ := "11-30" |});
            ("Summer", {| start := "12-01"; end_ := "02-29" |});
            ("Autumn", {| start := "03-01"; end_ := "05-31" |});
            ("Winter", {| start := "06-01"; end_ := "08-31" |}) ]) ]) ].

(** The loop over [Object.entries(defs)] with its fallback. *)
Fixpoint firstSeason (date : Date) (entries : list (string * DateRange))
  : string :=
  match entries with
  | [] => (* Fallback *) "Unknown"
  | (season, range) :: rest =>
      if isDateInRange date (start range) (end_ range) then season
      else firstSeason date rest
  end.

(** [seasonDefinitions[calendarType][hemisphere]] followed by
    [Object.entries]: reading a property of [undefined] throws, and so does
    [Object.entries(undefined)]; a member inherited from [Object.prototype]
    is a function or the prototype itself, with no property named after a
    hemisphere and no enumerable own property. *)
Definition entriesOf (calendarType : Value) (hemisphere : string)
  : Completion (list (string * DateRange)) :=
  let* key := propertyKey calendarType in
  match key with
  | None => Throw TypeError
  | Some key =>
      match getProperty seasonDefinitions key with
      | Missing => Throw TypeError
      | Inherited => Throw TypeError
      | Own byHemisphere =>
          match getProperty byHemisphere hemisphere with
          | Missing => Throw TypeError
          | Inherited => Normal []
          | Own defs => Normal defs
          end
      end
  end.

(** [getSeason(date, options)]; the default parameter values ([new Date()],
    [{}]) are supplied by the caller. *)
Definition getSeason (date : Date) (options : Options) : Completion string :=
  let calendarType :=
    match calendarType options with
    | Undefined => Str "Astronomical"
    | v => v
    end in
  (* seasonType is ignored in this simple implementation *)
  let* hemisphere := inferHemisphere options in
  let* defs := entriesOf calendarType hemisphere in
  Normal (firstSeason date defs).

(** *** Notions used to state the properties of the classifier *)

Definition seasons : list string := ["Spring"; "Summer"; "Autumn"; "Winter"].

(** The longest length of each month of the calendar (February has 29 days
    in a leap year): 366 month-day pairs in all. *)
Definition daysInMonth (month : Z) : Z :=
  if month =? 2 then 29
  else if (month =? 4) || (month =? 6) || (month =? 9) || (month =? 11)
  then 30 else 31.

Definition validMonthDay (month day : Z) : Prop :=
  1 <= month <= 12 /\ 1 <= day <= daysInMonth month.

(** The month-day pairs of the calendar, in order. *)
Definition calendar : list (Z * Z) :=
  flat_map
    (fun m =>
       map (fun d => (m, d))
         (map Z.of_nat (seq 1 (Z.to_nat (daysInMonth m)))))
    (map Z.of_nat (seq 1 12)).

(** The date falls on [day] of [month] (1 .. 12), in any year and at any
    time of day. *)
Definition onDay (month day : Z) (f : DateFields) : Prop :=
  monthIndex f + 1 = month /\ dayOfMonth f = day.

(** The seasons of [entries] whose range holds the date. *)
Definition matching (date : Date) (entries : list (string * DateRange))
  : list string :=
  map fst
    (List.filter (fun e => isDateInRange date (start (snd e)) (end_ (snd e)))
       entries).

(** The text ["MM-DD"] of a month and a day below 100. *)
Definition digit (n : Z) : ascii := ascii_of_nat (48 + Z.to_nat n).

Definition twoDigits (n : Z) : string :=
  String (digit (n / 10)) (String (digit (n mod 10)) "").

Definition monthDay (month day : Z) : string :=
  String.append (twoDigits month) (String "-" (twoDigits day)).

(** Inclusive membership of [cur] in the range from [startNum] to [endNum],
    which wraps around the end of the year when [startNum > endNum]. *)
Definition inRange (startNum endNum cur : Z) : bool :=
  if startNum <=? endNum
  then (startNum <=? cur) && (cur <=? endNum)
  else (startNum <=? cur) || (cur <=? endNum).

(** The string holds ASCII characters only. *)
Fixpoint asciiOnly (s : string) : bool :=
  match s with
  | EmptyString => true
  | String c r => Nat.ltb (nat_of_ascii c) 128 && asciiOnly r
  end.

(** Two strings are equal up to the case of their ASCII letters. *)
Definition sameIgnoringCase (s t : string) : Prop :=
  toUpperCase s = toUpperCase t.

(** The country code is one of the Southern-Hemisphere codes, whatever the
    case of its letters. *)
Definition southernCode (s : string) : Prop :=
  exists c, In c southernCountryCodes /\ sameIgnoringCase s c.

(** The options select the hemisphere themselves. *)
Definition explicitHemisphere (o : Options) : Prop :=
  hemisphere o = Str "Northern" \/ hemisphere o = Str "Southern".

(** Both coordinates are numbers. *)
Definition numericCoordinates (o : Options) : Prop :=
  exists lat lon, latitude o = Num lat /\ longitude o = Num lon.

(** Midnight on a day of a month (1 .. 12) of a year. *)
Definition midnight (year month day : Z) : DateFields :=
  {| fullYear := year; monthIndex := month - 1; dayOfMonth := day;
     hours := 0; minutes := 0; seconds := 0; milliseconds := 0 |}.

(** Options objects that differ from another in one property. *)
Definition withCalendarType (v : Value) (o : Options) : Options :=
  {| calendarType := v; seasonType := seasonType o;
     hemisphere := hemisphere o; countryCode := countryCode o;
     languageCulture := languageCulture o; latitude := latitude o;
     longitude := longitude o |}.

Definition withSeasonType (v : Value) (o : Options) : Options :=
  {| calendarType := calendarType o; seasonType := v;
     hemisphere := hemisphere o; countryCode := countryCode o;
     languageCulture := languageCulture o; latitude := latitude o;
     longitude := longitude o |}.

Definition withHemisphere (v : Value) (o : Options) : Options :=
  {| calendarType := calendarType o; seasonType := seasonType o;
     hemisphere := v; countryCode := countryCode o;
     languageCulture := languageCulture o; latitude := latitude o;
     longitude := longitude o |}.

Definition withCountryCode (v : Value) (o : Options) : Options :=
  {| calendarType := calendarType o; seasonType := seasonType o;
     hemisphere := hemisphere o; countryCode := v;
     languageCulture := languageCulture o; latitude := latitude o;
     longitude := longitude o |}.

Definition withLanguageCulture (v : Value) (o : Options) : Options :=
  {| calendarType := calendarType o; seasonType := seasonType o;
     hemisphere := hemisphere o; countryCode := countryCode o;
     languageCulture := v; latitude := latitude o;
     longitude := longitude o |}.

Definition withLatitude (v : Value) (o : Options) : Options :=
  {| calendarType := calendarType o; seasonType := seasonType o;
     hemisphere := hemisphere o; countryCode := countryCode o;
     languageCulture := languageCulture o; latitude := v;
     longitude := longitude o |}.

Definition withLongitude (v : Value) (o : Options) : Options :=
  {| calendarType := calendarType o; seasonType := seasonType o;
     hemisphere := hemisphere o; countryCode := countryCode o;
     languageCulture := languageCulture o; latitude := latitude o;
     longitude := v |}.

(** The season half a year away; the fallback has none. *)
Definition opposite (season : string) : string :=
  if String.eqb season "Spring" then "Autumn"
  else if String.eqb season "Summer" then "Winter"
  else if String.eqb season "Autumn" then "Spring"
  else if String.eqb season "Winter" then "Summer"
  else season.

(** The season of a whole month (1 .. 12) in the Northern hemisphere. *)
Definition monthSeason (month : Z) : string :=
  if (3 <=? month) && (month <=? 5) then "Spring"
  else if (6 <=? month) && (month <=? 8) then "Summer"
  else if (9 <=? month) && (month <=? 11) then "Autumn"
  else "Winter".

(** The months in which an astronomical season starts. *)
Definition turningMonth (month : Z) : Prop :=
  month = 3 \/ month = 6 \/ month = 9 \/ month = 12.

(** The calendar type that indexes the tables: the default stands for an
    absent one. *)
Definition calendarTypeUsed (o : Options) : Value :=
  match calendarType o with
  | Undefined => Str "Astronomical"
  | v => v
  end.

(** The calendar type in force: the name of one of the two tables, which
    the calendar type used converts to. *)
Definition calendarInForce (o : Options) (ct : string) : Prop :=
  propertyKey (calendarTypeUsed o) = Normal (Some ct)
  /\ (ct = "Astronomical" \/ ct = "Meteorological").

End Season.

(** ** snow.js *)

Module Snow.
Import JS.

(** The messages posted to the worker. *)
Inductive Message : Type :=
| CanvasMessage                              (* { type: "canvas", canvas } *)
| StartMessage                               (* { type: "start" } *)
| StopMessage                                (* { type: "stop" } *)
| ResizeMessage (innerWidth innerHeight : Z) (* { type: "resize", window } *).

(** A [.snow-toggle__control] element of the page. *)
Record Control : Type := { value : string; checked : bool }.

(** What the script reads and writes on one page: the worker's inbox, the
    document and the variables its closures capture. *)
Record Page : Type := {
  posted : list Message;    (* worker.postMessage calls, oldest first *)
  title : string;           (* document.title, as its getter reads it *)
  pageTitle : string;       (* const pageTitle *)
  controls : list Control;  (* the controls inside .snow-toggle *)
  hidden : bool;            (* snowToggle.hidden *)
  waiting : bool;           (* the latch of throttle *)
  timers : list Z           (* due times of the pending setTimeout calls *)
}.

(** [localStorage], shared by the pages of one origin. *)
Abbreviation Storage := (gmap string string).

Definition storageKey : string := "snow".

Definition getItem (storage : Storage) (key : string) : Value :=
  match storage !! key with
  | Some s => Str s
  | None => Null
  end.

Definition setItem (storage : Storage) (key value : string) : Storage :=
  <[key := value]> storage.

Definition postMessage (m : Message) (p : Page) : Page :=
  {| posted := posted p ++ [m]; title := title p; pageTitle := pageTitle p;
     controls := controls p; hidden := hidden p; waiting := waiting p;
     timers := timers p |}.

(** [document.title = t]: the text becomes the content of the title
    element, and the getter strips and collapses its whitespace. *)
Definition setTitle (t : string) (p : Page) : Page :=
  {| posted := posted p; title := stripAndCollapse t; pageTitle := pageTitle p;
     controls := controls p; hidden := hidden p; waiting := waiting p;
     timers := timers p |}.

Definition setControls (cs : list Control) (p : Page) : Page :=
  {| posted := posted p; title := title p; pageTitle := pageTitle p;
     controls := cs; hidden := hidden p; waiting := waiting p;
     timers := timers p |}.

Definition setHidden (b : bool) (p : Page) : Page :=
  {| posted := posted p; title := title p; pageTitle := pageTitle p;
     controls := controls p; hidden := b; waiting := waiting p;
     timers := timers p |}.

Definition setThrottle (w : bool) (ts : list Z) (p : Page) : Page :=
  {| posted := posted p; title := title p; pageTitle := pageTitle p;
     controls := controls p; hidden := hidden p; waiting := w;
     timers := ts |}.

(** The methods of [SnowfallWorker]. *)
Definition start (p : Page) : Page := postMessage StartMessage p.
Definition stop (p : Page) : Page := postMessage StopMessage p.
Definition resize (innerWidth innerHeight : Z) (p : Page) : Page :=
  postMessage (ResizeMessage innerWidth innerHeight) p.

(** [new SnowfallWorker(canvas)]. *)
Definition newSnowfallWorker (innerWidth innerHeight : Z) (p : Page) : Page :=
  resize innerWidth innerHeight (postMessage CanvasMessage p).

Definition indicator : string := "❄️ ".

Definition changeSnowAnimation (animationName : Value) (p : Page) : Page :=
  if strictEqualsString animationName "none"
  then setTitle (pageTitle p) (stop p)
  else if strictEqualsString animationName "snowfall"
  then setTitle (String.append indicator (pageTitle p)) (start p)
  else p.

(** The controls are the radio buttons of one group: checking one
    unchecks the others. *)
Definition unchecked (c : Control) : Control :=
  {| value := value c; checked := false |}.

(** [snowToggle.querySelector(`.snow-toggle__control[value='v']`).checked =
    true] for a value [v] that stands for itself in the selector: the first
    control with that value is checked; when there is none the selector
    yields [null] and the assignment throws. *)
Fixpoint checkControl (v : string) (cs : list Control)
  : Completion (list Control) :=
  match cs with
  | [] => Throw TypeError
  | c :: rest =>
      if String.eqb (value c) v
      then Normal ({| value := value c; checked := true |}
                     :: map unchecked rest)
      else
        let* rest' := checkControl v rest in
        Normal (unchecked c :: rest')
  end.

(** A value stands for itself between the quotes of the selector when it
    holds no quote, no backslash, no line break and no NUL. *)
Definition plainCharacter (c : ascii) : bool :=
  let n := nat_of_ascii c in
  negb (Nat.eqb n 0 || Nat.eqb n 10 || Nat.eqb n 12 || Nat.eqb n 13
        || Nat.eqb n 39 || Nat.eqb n 92)%bool.

Fixpoint plainText (v : string) : bool :=
  match v with
  | EmptyString => true
  | String c r => plainCharacter c && plainText r
  end.

(** What [querySelector] finds inside the toggle. *)
Inductive Selection : Type :=
| NoElement                 (* null *)
| ControlAt (i : nat)       (* the control at position i *)
| AnotherElement            (* an element that is no control *).

(** The selector engine on the text built from a value that does not stand
    for itself: it may refuse the text or select anything.  It is a
    parameter of the model. *)
Abbreviation SelectorEngine :=
  (string -> list Control -> Completion Selection).

(** Checks the control at position [i], if there is one. *)
Fixpoint checkAt (i : nat) (cs : list Control) : option (list Control) :=
  match cs, i with
  | [], _ => None
  | c :: rest, O =>
      Some ({| value := value c; checked := true |} :: map unchecked rest)
  | c :: rest, S j =>
      match checkAt j rest with
      | Some rest' => Some (unchecked c :: rest')
      | None => None
      end
  end.

(** The same assignment for a stored value [v]. *)
Definition restoreControl (engine : SelectorEngine) (v : string)
    (cs : list Control) : Completion (list Control) :=
  if plainText v then checkControl v cs
  else
    let* selection := engine v cs in
    match selection with
    | NoElement => Throw TypeError
    | ControlAt i =>
        match checkAt i cs with
        | Some cs' => Normal cs'
        | None => Normal cs
        end
    | AnotherElement => Normal cs
    end.

(** The page before the script runs: the text of its title element, the
    controls of its toggle (the markup is expected to hold the canvas and
    the toggle container) and whether the toggle is hidden. *)
Definition loaded (documentTitle : string) (markup : list Control)
    (toggleHidden : bool) : Page :=
  {| posted := []; title := stripAndCollapse documentTitle;
     pageTitle := stripAndCollapse documentTitle;
     controls := markup; hidden := toggleHidden; waiting := false;
     timers := [] |}.

(** [window.onload], up to the registration of the listeners. *)
Definition onload (engine : SelectorEngine) (now : Season.Date)
    (innerWidth innerHeight : Z)
    (storage : Storage) (documentTitle : string) (markup : list Control)
    (toggleHidden : bool) : Completion Page :=
  let p := loaded documentTitle markup toggleHidden in
  let p := newSnowfallWorker innerWidth innerHeight p in
  let* season := Season.getSeason now Season.noOptions in
  let isWinter := String.eqb season "Winter" in
  let currentStorage := getItem storage storageKey in
  let* p :=
    if (isWinter && truthy currentStorage)%bool then
      match currentStorage with
      | Str s =>
          let* cs := restoreControl engine s (controls p) in
          Normal (changeSnowAnimation currentStorage (setControls cs p))
      | _ => Normal p (* getItem yields a string or null *)
      end
    else if isWinter then
      let* cs := checkControl "snowfall" (controls p) in
      Normal (changeSnowAnimation (Str "snowfall") (setControls cs p))
    else Normal p in
  Normal (setHidden (negb isWinter) p).

(** The listeners. *)
Definition onStorage (storage : Storage) (p : Page) : Page :=
  changeSnowAnimation (getItem storage storageKey) p.

Definition onChange (targetValue : string) (storage : Storage) (p : Page)
  : Storage * Page :=
  let value := targetValue in
  let storage := setItem storage storageKey targetValue in
  (storage, changeSnowAnimation (Str value) p).

(** [throttle(func, wait)], called at time [now]: [setTimeout] records the
    time at which the latch is to be released. *)
Definition throttle (func : Page -> Page) (wait : Z) (now : Z) (p : Page)
  : Page :=
  if negb (waiting p) then
    let p := func p in
    setThrottle true (timers p ++ [now + wait]) p
  else p.

Definition onResize (now innerWidth innerHeight : Z) (p : Page) : Page :=
  throttle (resize innerWidth innerHeight) 33 now p.

(** The event loop under a virtual clock (milliseconds).  Before an event
    that occurs at time [now] is dispatched, the timers that are due run
    their callback, [waiting = false].  Whether a timer due exactly at
    [now] runs before the event is left open by the platform:
    [timerFirst] fixes either order. *)
Section EventLoop.

Variable timerFirst : bool.

Definition due (now deadline : Z) : bool :=
  if timerFirst then deadline <=? now else deadline <? now.

Definition runTimers (now : Z) (p : Page) : Page :=
  if existsb (due now) (timers p)
  then setThrottle false (List.filter (fun d => negb (due now d)) (timers p)) p
  else p.

Inductive Event : Type :=
| StorageEvent
| ChangeEvent (targetValue : string)
| ResizeEvent (innerWidth innerHeight : Z).

Definition dispatch (now : Z) (e : Event) (w : Storage * Page)
  : Storage * Page :=
  let p := runTimers now (snd w) in
  match e with
  | StorageEvent => (fst w, onStorage (fst w) p)
  | ChangeEvent v => onChange v (fst w) p
  | ResizeEvent iw ih => (fst w, onResize now iw ih p)
  end.

Fixpoint run (events : list (Z * Event)) (w : Storage * Page)
  : Storage * Page :=
  match events with
  | [] => w
  | (now, e) :: rest => run rest (dispatch now e w)
  end.

End EventLoop.

(** Modelled from the spec: the worker script [snow-worker.js] is not among
    the sources.  The animation is [Running] after a [start] command and
    [Stopped] after a [stop] command, and starts out [Stopped]; the other
    messages leave the state as it is. *)
Inductive AnimationState : Type := Stopped | Running.

Definition receive (st : AnimationState) (m : Message) : AnimationState :=
  match m with
  | StartMessage => Running
  | StopMessage => Stopped
  | CanvasMessage | ResizeMessage _ _ => st
  end.

Definition animationState (inbox : list Message) : AnimationState :=
  fold_left receive inbox Stopped.

(** The control a selector on [v] picks. *)
Definition selected (v : string) (cs : list Control) : option Control :=
  find (fun c => String.eqb (value c) v) cs.

(** *** Notions used to state the properties of the orchestrator *)

(** The markup offers a control for the value [v]. *)
Definition offers (v : string) (markup : list Control) : Prop :=
  exists c, selected v markup = Some c.

(** The control for the value [v] is checked. *)
Definition isChecked (v : string) (cs : list Control) : Prop :=
  exists c, selected v cs = Some c /\ checked c = true.

(** It is winter for the script: [getSeason() === "Winter"]. *)
Definition isWinter (now : Season.Date) : Prop :=
  Season.getSeason now Season.noOptions = Normal "Winter".

(** The throttle holds no latch and no timer. *)
Definition idle (p : Page) : Prop :=
  waiting p = false /\ timers p = [].

(** The throttle is ready for a resize at [t]: it is idle, or its only
    timer is due before [t]. *)
Definition ready (t : Z) (p : Page) : Prop :=
  idle p \/ exists d, timers p = [d] /\ d < t.

(** A resize of the viewport: when it occurs, and the new dimensions. *)
Record Resized : Type := { time : Z; width : Z; height : Z }.

Definition resizeEvent (r : Resized) : Z * Event :=
  (time r, ResizeEvent (width r) (height r)).

Definition resizeMessage (r : Resized) : Message :=
  ResizeMessage (width r) (height r).

(** Every resize occurs within the window opened at [t0]. *)
Definition withinWindow (t0 : Z) (rs : list Resized) : Prop :=
  Forall (fun r => t0 <= time r < t0 + 33) rs.

(** Each resize occurs more than a window after the one before. *)
Fixpoint beyondWindow (rs : list Resized) : Prop :=
  match rs with
  | a :: (b :: _) as rest => time a + 33 < time b /\ beyondWindow rest
  | _ => True
  end.

(** A page with two radio controls, none of them checked. *)
Definition twoControls : list Control :=
  [ {| value := "snowfall"; checked := false |};
    {| value := "none"; checked := false |} ].

(** At most one timer is pending, and the latch is set exactly while it
    is. *)
Definition throttleInvariant (p : Page) : Prop :=
  idle p \/ (waiting p = true /\ exists d, timers p = [d]).

Definition isResizeMessage (m : Message) : bool :=
  match m with
  | ResizeMessage _ _ => true
  | _ => false
  end.

(** The number of resize messages in an inbox. *)
Definition resizeCount (inbox : list Message) : nat :=
  length (List.filter isResizeMessage inbox).

(** Every event occurs in the 33 ms that start at [a]. *)
Definition timesWithin (a : Z) (events : list (Z * Event)) : Prop :=
  Forall (fun te => a <= fst te < a + 33) events.

(** The string holds no whitespace. *)
Fixpoint spaceFree (s : string) : bool :=
  match s with
  | EmptyString => true
  | String c r => negb (isAsciiWhitespace c) && spaceFree r
  end.

(** A word: a non-empty string without whitespace. *)
Definition isWord (s : string) : bool := nonEmpty s && spaceFree s.

(** The indicator without the space that follows it. *)
Definition snowflake : string := "❄️".

(** A title as the getter of [document.title] returns it. *)
Definition normalised (t : string) : Prop := stripAndCollapse t = t.

(** How the document title reads once the indicator is put before the
    title [t]: the space after the indicator is stripped when nothing
    follows it. *)
Definition marked (t : string) : string :=
  if String.eqb t "" then snowflake else String.append indicator t.

(** The title agrees with the animation: it carries the indicator while
    the animation runs and is the captured title while it is stopped. *)
Definition titleConsistent (p : Page) : Prop :=
  normalised (pageTitle p)
  /\ ((animationState (posted p) = Running
       /\ title p = marked (pageTitle p))
      \/ (animationState (posted p) = Stopped /\ title p = pageTitle p)).

(** The engine that refuses every text it is asked about. *)
Definition strictEngine : SelectorEngine :=
  fun _ _ => Throw OtherError.

(** The value the last change event of [events] carries, or [initial] when
    there is none. *)
Definition storedAfter (events : list (Z * Event)) (initial : option string)
  : option string :=
  fold_left
    (fun current te =>
       match snd te with
       | ChangeEvent v => Some v
       | _ => current
       end)
    events initial.

(** No event of [events] is a change the user makes to a control (which
    the browser, not the script, reflects in the checked state). *)
Definition noUserChange (events : list (Z * Event)) : Prop :=
  Forall (fun te => forall v, snd te <> ChangeEvent v) events.

End Snow.

(** ** Properties of the season classifier *)

Module SeasonProofs.
Import JS Season.

#[local] Arguments isDateInRange : simpl never.

(** *** Parsing the month-day texts *)

Lemma monthDay_table :
  forallb
    (fun m =>
       forallb
         (fun d =>
            bool_decide
              (map Number (split "-" (monthDay (Z.of_nat m) (Z.of_nat d)))
               = [Some (Z.of_nat m); Some (Z.of_nat d)]))
         (seq 0 100))
    (seq 0 100) = true.
Proof. vm_compute. reflexivity. Qed.

Lemma monthDay_parses (m d : Z) :
  0 <= m <= 99 -> 0 <= d <= 99 ->
  map Number (split "-" (monthDay m d)) = [Some m; Some d].
Proof.
  intros Hm Hd.
  pose proof monthDay_table as T.
  rewrite forallb_forall in T.
  assert (Im : In (Z.to_nat m) (seq 0 100)) by (apply in_seq; lia).
  assert (Id : In (Z.to_nat d) (seq 0 100)) by (apply in_seq; lia).
  specialize (T _ Im). rewrite forallb_forall in T. specialize (T _ Id).
  rewrite !Z2Nat.id in T by lia.
  exact (bool_decide_eq_true_1 _ T).
Qed.

(** On a valid date and on texts that parse to numbers, [isDateInRange] is
    the integer range test. *)
Lemma isDateInRange_parsed (f : DateFields) (s e : string) (sm sd em ed : Z) :
  map Number (split "-" s) = [Some sm; Some sd] ->
  map Number (split "-" e) = [Some em; Some ed] ->
  isDateInRange (ValidDate f) s e
  = inRange (sm * 100 + sd) (em * 100 + ed)
      ((monthIndex f + 1) * 100 + dayOfMonth f).
Proof.
  intros Hs He. unfold isDateInRange, element. rewrite Hs, He.
  reflexivity.
Qed.

Ltac parse_ranges :=
  repeat match goal with
    | |- context [isDateInRange (ValidDate ?f) ?s ?e] =>
        let ps := eval vm_compute in (map Number (split "-" s)) in
        let pe := eval vm_compute in (map Number (split "-" e)) in
        match ps with
        | [Some ?sm; Some ?sd] =>
            match pe with
            | [Some ?em; Some ?ed] =>
                rewrite (isDateInRange_parsed f s e sm sd em ed
                           eq_refl eq_refl)
            end
        end
    end.

(** Decides every comparison of the goal from the hypotheses. *)
Ltac decide_comparisons :=
  repeat match goal with
    | |- context [Z.leb ?a ?b] =>
        first [ rewrite (proj2 (Z.leb_le a b)) by lia
              | rewrite (proj2 (Z.leb_gt a b)) by lia ]
    end.

Lemma validMonthDay_bounds (m d : Z) :
  validMonthDay m d ->
  1 <= m <= 12 /\ 1 <= d <= 31 /\ (m = 2 -> d <= 29) /\ (m = 11 -> d <= 30).
Proof.
  unfold validMonthDay, daysInMonth. intros [Hm Hd].
  destruct (Z.eqb_spec m 2); [lia|].
  destruct (Z.eqb_spec m 4), (Z.eqb_spec m 6), (Z.eqb_spec m 9),
    (Z.eqb_spec m 11); cbn [orb] in Hd; lia.
Qed.

Lemma in_map_of_nat_seq (a len : nat) (z : Z) :
  In z (map Z.of_nat (seq a len))
  <-> Z.of_nat a <= z < Z.of_nat a + Z.of_nat len.
Proof.
  rewrite in_map_iff. split.
  - intros (n & <- & H%in_seq). lia.
  - intros H. exists (Z.to_nat z). split; [lia | apply in_seq; lia].
Qed.

(** The valid month-day pairs are the 366 pairs of [calendar]. *)
Lemma calendar_length : length calendar = 366%nat.
Proof. reflexivity. Qed.

Lemma validMonthDay_calendar (m d : Z) :
  validMonthDay m d <-> In (m, d) calendar.
Proof.
  unfold validMonthDay, calendar. rewrite in_flat_map.
  assert (P : 0 < daysInMonth m).
  { unfold daysInMonth. destruct (m =? 2); [lia|].
    destruct (_ || _)%bool; lia. }
  split.
  - intros [Hm Hd]. exists m. split.
    + apply in_map_of_nat_seq. lia.
    + apply in_map_iff. exists d. split; [reflexivity|].
      apply in_map_of_nat_seq. lia.
  - intros (m' & Hm' & Hd). apply in_map_iff in Hd.
    destruct Hd as (d' & E & Hd'). injection E as -> ->.
    apply in_map_of_nat_seq in Hm'. apply in_map_of_nat_seq in Hd'. lia.
Qed.

Lemma inferHemisphere_explicit (o : Options) (h : string) :
  hemisphere o = Str h -> h = "Northern" \/ h = "Southern" ->
  inferHemisphere o = Normal h.
Proof.
  intros Ho [-> | ->]; unfold inferHemisphere; rewrite Ho; reflexivity.
Qed.

Lemma entriesOf_own (ct h : string) byHemisphere defs :
  ownProperty seasonDefinitions ct = Some byHemisphere ->
  ownProperty byHemisphere h = Some defs ->
  entriesOf (Str ct) h = Normal defs.
Proof.
  intros H1 H2. unfold entriesOf, getProperty. cbn [propertyKey bind].
  rewrite H1, H2. reflexivity.
Qed.

Lemma getSeason_explicit (date : Date) (o : Options) (ct h : string)
    byHemisphere defs :
  calendarType o = Str ct ->
  hemisphere o = Str h ->
  h = "Northern" \/ h = "Southern" ->
  ownProperty seasonDefinitions ct = Some byHemisphere ->
  ownProperty byHemisphere h = Some defs ->
  getSeason date o = Normal (firstSeason date defs).
Proof.
  intros Ho1 Ho2 Hh H1 H2. unfold getSeason.
  rewrite Ho1, (inferHemisphere_explicit o h Ho2 Hh). cbn [bind].
  rewrite (entriesOf_own ct h _ _ H1 H2). reflexivity.
Qed.

(** Where the number [month * 100 + day] of a valid day lies with respect
    to the boundaries of the astronomical and of the meteorological
    tables. *)
Lemma astronomical_cases (m d : Z) :
  validMonthDay m d ->
  let c := m * 100 + d in
  c <= 320 \/ 321 <= c <= 620 \/ 621 <= c <= 920 \/ 921 <= c <= 1220
  \/ 1221 <= c.
Proof. intros Hv%validMonthDay_bounds c. subst c. lia. Qed.

Lemma meteorological_cases (m d : Z) :
  validMonthDay m d ->
  let c := m * 100 + d in
  c <= 229 \/ 301 <= c <= 531 \/ 601 <= c <= 831 \/ 901 <= c <= 1130
  \/ 1201 <= c.
Proof. intros Hv%validMonthDay_bounds c. subst c. lia. Qed.

(** C1: on every valid calendar day, under each of the two calendar types
    and each explicit hemisphere, exactly one of the four ranges of the
    table holds the date, and [getSeason] returns the season of that range,
    one of Spring, Summer, Autumn and Winter (never the fallback). *)
Theorem getSeason_partitions_year
    (f : DateFields) (o : Options) (ct h : string) :
  validMonthDay (monthIndex f + 1) (dayOfMonth f) ->
  ct = "Astronomical" \/ ct = "Meteorological" ->
  h = "Northern" \/ h = "Southern" ->
  calendarType o = Str ct ->
  hemisphere o = Str h ->
  exists byHemisphere defs,
    ownProperty seasonDefinitions ct = Some byHemisphere /\
    ownProperty byHemisphere h = Some defs /\
    map fst defs = seasons /\
    exists season,
      matching (ValidDate f) defs = [season] /\
      In season seasons /\
      getSeason (ValidDate f) o = Normal season.
Proof.
  intros Hv Hct Hh Ho1 Ho2.
  pose proof (astronomical_cases _ _ Hv) as HA.
  pose proof (meteorological_cases _ _ Hv) as HM.
  cbv zeta in HA, HM. clear Hv.
  assert (Hh' := Hh).
  destruct Hct as [-> | ->]; [clear HM; rename HA into HC
                             | clear HA; rename HM into HC];
    (destruct Hh as [-> | ->];
     (do 2 eexists;
      split; [reflexivity|]; split; [reflexivity|];
      split; [reflexivity|];
      erewrite getSeason_explicit with (1 := Ho1) (2 := Ho2);
      [ | exact Hh' | reflexivity | reflexivity ];
      unfold matching;
      cbn [firstSeason List.filter map fst snd start end_];
      parse_ranges; unfold inRange, seasons;
      destruct HC as [HC | [HC | [HC | [HC | HC]]]];
      decide_comparisons; cbn [andb orb map fst];
      eexists; (split; [reflexivity|]); cbn [In]; auto 6)).
Qed.

Lemma getSeason_partitions_year_witness :
  validMonthDay 2 29 /\
  exists byHemisphere defs,
    ownProperty seasonDefinitions "Meteorological" = Some byHemisphere /\
    ownProperty byHemisphere "Southern" = Some defs /\
    map fst defs = seasons /\
    exists season,
      matching (ValidDate (midnight 2024 2 29)) defs = [season] /\
      In season seasons /\
      getSeason (ValidDate (midnight 2024 2 29))
        (withCalendarType (Str "Meteorological")
           (withHemisphere (Str "Southern") noOptions))
      = Normal season.
Proof.
  assert (V : validMonthDay 2 29) by (unfold validMonthDay; cbn; lia).
  split; [exact V|].
  apply (getSeason_partitions_year (midnight 2024 2 29)
           (withCalendarType (Str "Meteorological")
              (withHemisphere (Str "Southern") noOptions))
           "Meteorological" "Southern");
    [exact V | right; reflexivity | right; reflexivity
    | reflexivity | reflexivity].
Defined.

(** *** Unrecognised calendar types *)

Lemma entriesOf_other_key (v : Value) (k : option string) (h : string) :
  propertyKey v = Normal k ->
  k <> Some "Astronomical" -> k <> Some "Meteorological" ->
  entriesOf v h = Throw TypeError.
Proof.
  intros Hk HA HM. unfold entriesOf. rewrite Hk. cbn [bind].
  destruct k as [key |]; [|reflexivity].
  unfold getProperty. cbn [ownProperty seasonDefinitions].
  destruct (String.eqb_spec "Astronomical" key) as [<- | _];
    [exfalso; auto|].
  destruct (String.eqb_spec "Meteorological" key) as [<- | _];
    [exfalso; auto|].
  destruct (includes objectPrototypeKeys key); reflexivity.
Qed.

Lemma calendarTypeUsed_present (o : Options) :
  calendarType o <> Undefined -> calendarTypeUsed o = calendarType o.
Proof. unfold calendarTypeUsed. destruct (calendarType o); congruence. Qed.

(** [getSeason], with the calendar type used named. *)
Lemma getSeason_steps (date : Date) (o : Options) :
  getSeason date o
  = let* h := inferHemisphere o in
    let* defs := entriesOf (calendarTypeUsed o) h in
    Normal (firstSeason date defs).
Proof. reflexivity. Qed.

(** C2 (amended): a calendar type that is present and converts to a
    property key other than the two recognised names makes [getSeason]
    throw instead of returning the fallback: a [TypeError] when the
    hemisphere resolves, and otherwise what resolving the hemisphere
    throws.  An absent calendar type stands for "Astronomical", and a
    calendar type is read through the key it converts to only. *)
Theorem getSeason_unrecognised_calendarType :
  (forall (date : Date) (o : Options) (k : option string),
      calendarType o <> Undefined ->
      propertyKey (calendarType o) = Normal k ->
      k <> Some "Astronomical" -> k <> Some "Meteorological" ->
      (forall h, inferHemisphere o = Normal h ->
                 getSeason date o = Throw TypeError)
      /\ (forall e, inferHemisphere o = Throw e ->
                    getSeason date o = Throw e)
      /\ (exists e, getSeason date o = Throw e)
      /\ getSeason date o <> Normal "Unknown")
  /\ (forall (date : Date) (o : Options),
         calendarType o = Undefined ->
         getSeason date o
         = getSeason date (withCalendarType (Str "Astronomical") o))
  /\ (forall (date : Date) (o : Options) (key : string),
         calendarType o <> Undefined ->
         propertyKey (calendarType o) = Normal (Some key) ->
         getSeason date o = getSeason date (withCalendarType (Str key) o)).
Proof.
  split; [|split].
  - intros date o k Hu Hk HA HM.
    assert (T : forall h, inferHemisphere o = Normal h ->
                          getSeason date o = Throw TypeError).
    { intros h Hh. rewrite getSeason_steps, Hh. cbn [bind].
      rewrite (calendarTypeUsed_present o Hu).
      rewrite (entriesOf_other_key _ k h Hk HA HM). reflexivity. }
    assert (E : forall e, inferHemisphere o = Throw e ->
                          getSeason date o = Throw e).
    { intros e He. rewrite getSeason_steps, He. reflexivity. }
    assert (X : exists e, getSeason date o = Throw e).
    { destruct (inferHemisphere o) as [h | e] eqn:Hh; eauto. }
    split; [exact T|]. split; [exact E|]. split; [exact X|].
    destruct X as (e & ->). discriminate.
  - intros date o Hu. rewrite !getSeason_steps.
    unfold calendarTypeUsed, inferHemisphere. cbn. rewrite Hu. reflexivity.
  - intros date o key Hu Hk. rewrite !getSeason_steps.
    rewrite (calendarTypeUsed_present o Hu).
    unfold calendarTypeUsed, inferHemisphere, entriesOf. cbn. rewrite Hk.
    reflexivity.
Qed.

Lemma getSeason_unrecognised_calendarType_witness :
  getSeason InvalidDate (withCalendarType Null noOptions) = Throw TypeError.
Proof.
  destruct getSeason_unrecognised_calendarType as [unrecognised _].
  destruct (unrecognised InvalidDate (withCalendarType Null noOptions)
              (Some "null")) as [throws _].
  - discriminate.
  - reflexivity.
  - discriminate.
  - discriminate.
  - apply (throws "Northern"). reflexivity.
Defined.

(** C2 as stated fails: with [calendarType: "Gregorian"] the call throws
    instead of returning the fallback. *)
Lemma getSeason_gregorian_throws :
  getSeason (ValidDate (midnight 2024 12 25))
    (withCalendarType (Str "Gregorian") noOptions) = Throw TypeError
  /\ getSeason (ValidDate (midnight 2024 12 25))
       (withCalendarType (Str "Gregorian") noOptions) <> Normal "Unknown".
Proof. split; [reflexivity | discriminate]. Qed.

(** *** Resolving the hemisphere *)

Lemma includes_In (l : list string) (x : string) :
  includes l x = true <-> In x l.
Proof.
  unfold includes. rewrite existsb_exists. split.
  - intros (y & Hy & E). apply String.eqb_eq in E. subst. exact Hy.
  - intros Hx. exists x. split; [exact Hx | apply String.eqb_refl].
Qed.

Lemma southernCountryCodes_upper :
  Forall (fun c => toUpperCase c = c) southernCountryCodes.
Proof. unfold southernCountryCodes. repeat constructor. Qed.

(** Looking the upper-cased code up is matching it whatever its case. *)
Lemma southernCode_includes (s : string) :
  southernCode s <-> includes southernCountryCodes (toUpperCase s) = true.
Proof.
  pose proof southernCountryCodes_upper as U.
  rewrite List.Forall_forall in U.
  rewrite includes_In. unfold southernCode, sameIgnoringCase. split.
  - intros (c & Hc & E). rewrite E, (U c Hc). exact Hc.
  - intros Hs. exists (toUpperCase s). split; [exact Hs|].
    symmetry. apply (U _ Hs).
Qed.


Lemma explicitHemisphere_dec (o : Options) :
  explicitHemisphere o \/ ~ explicitHemisphere o.
Proof.
  unfold explicitHemisphere.
  destruct (hemisphere o) as [ | | b | x | s | ob];
    try (right; intros [H | H]; discriminate H).
  destruct (String.eqb_spec s "Northern") as [-> | N]; [left; left; reflexivity|].
  destruct (String.eqb_spec s "Southern") as [-> | S]; [left; right; reflexivity|].
  right. intros [H | H]; inversion H; contradiction.
Qed.

Lemma numericCoordinates_dec (o : Options) :
  numericCoordinates o \/ ~ numericCoordinates o.
Proof.
  unfold numericCoordinates.
  destruct (latitude o) as [ | | b | x | s | ob];
    try (right; intros (lat & lon & H & _); discriminate H).
  destruct (longitude o) as [ | | b | y | s | ob'];
    try (right; intros (lat & lon & _ & H); discriminate H).
  left. exists x, y. split; reflexivity.
Qed.

(** Without an explicit hemisphere the first two tests fail. *)
Lemma inferHemisphere_not_explicit (o : Options) :
  ~ explicitHemisphere o ->
  strictEqualsString (hemisphere o) "Northern" = false /\
  strictEqualsString (hemisphere o) "Southern" = false.
Proof.
  unfold explicitHemisphere. intros H.
  destruct (hemisphere o) as [ | | b | x | s | ob]; cbn; try (split; reflexivity).
  split; apply String.eqb_neq; intros ->; apply H; auto.
Qed.

Lemma inferHemisphere_coordinates (o : Options) (lat lon : float) :
  ~ explicitHemisphere o ->
  latitude o = Num lat -> longitude o = Num lon ->
  inferHemisphere o
  = Normal (if PrimFloat.leb 0%float lat then "Northern" else "Southern").
Proof.
  intros [E1 E2]%inferHemisphere_not_explicit Hlat Hlon.
  unfold inferHemisphere. rewrite E1, E2, Hlat, Hlon. reflexivity.
Qed.

(** With neither an explicit hemisphere nor numeric coordinates, the country
    code decides. *)
Lemma inferHemisphere_country (o : Options) :
  ~ explicitHemisphere o -> ~ numericCoordinates o ->
  inferHemisphere o
  = if truthy (countryCode o)
    then
      let* southern := isSouthernCountry (countryCode o) in
      if southern then Normal "Southern" else Normal "Northern"
    else Normal "Northern".
Proof.
  intros [E1 E2]%inferHemisphere_not_explicit Hn.
  unfold inferHemisphere. rewrite E1, E2.
  unfold numericCoordinates in Hn.
  destruct (latitude o) as [ | | b | x | s | ob]; try reflexivity.
  destruct (longitude o) as [ | | b | y | s | ob']; try reflexivity.
  exfalso. apply Hn. exists x, y. split; reflexivity.
Qed.

Lemma isSouthernCountry_string (s : string) :
  truthy (Str s) = true ->
  isSouthernCountry (Str s)
  = Normal (includes southernCountryCodes (toUpperCase s)).
Proof. intros T. unfold isSouthernCountry. rewrite T. reflexivity. Qed.




Lemma inferHemisphere_names (o : Options) (h : string) :
  inferHemisphere o = Normal h -> h = "Northern" \/ h = "Southern".
Proof.
  unfold inferHemisphere.
  destruct (strictEqualsString (hemisphere o) "Northern");
    [intros [= <-]; auto|].
  destruct (strictEqualsString (hemisphere o) "Southern");
    [intros [= <-]; auto|].
  destruct (latitude o) as [ | | b | x | s | ob],
    (longitude o) as [ | | b' | y | s' | ob'];
    try (destruct (PrimFloat.leb 0%float x); intros [= <-]; auto);
    (destruct (truthy (countryCode o)); [|intros [= <-]; auto];
     destruct (isSouthernCountry (countryCode o)) as [[|] | e]; cbn [bind];
     [intros [= <-]; auto | intros [= <-]; auto | discriminate]).
Qed.

(** C8 (amended): [inferHemisphere] returns Northern or Southern whenever
    an explicit hemisphere or numeric coordinates decide, and whenever the
    country code is falsy or a string, whatever the hemisphere, latitude
    and longitude are; whenever it returns, it returns one of the two.  It
    is not total: when the country rule is reached with a truthy boolean or
    number, it throws a [TypeError]. *)
Theorem inferHemisphere_total_on_strings (o : Options) :
  (explicitHemisphere o \/ numericCoordinates o \/
   truthy (countryCode o) = false \/ (exists s, countryCode o = Str s) ->
   inferHemisphere o = Normal "Northern" \/
   inferHemisphere o = Normal "Southern")
  /\ (forall h, inferHemisphere o = Normal h ->
                h = "Northern" \/ h = "Southern")
  /\ (~ explicitHemisphere o -> ~ numericCoordinates o ->
      truthy (countryCode o) = true ->
      (exists b, countryCode o = Boolean b)
      \/ (exists x, countryCode o = Num x) ->
      inferHemisphere o = Throw TypeError).
Proof.
  split; [|split; [exact (inferHemisphere_names o)|]].
  - intros Hc.
    destruct (explicitHemisphere_dec o) as [He | He].
    { destruct He as [H | H]; [left | right];
        apply (inferHemisphere_explicit o _ H); auto. }
    destruct (numericCoordinates_dec o) as [Hn | Hn].
    { destruct Hn as (lat & lon & Hlat & Hlon).
      rewrite (inferHemisphere_coordinates o lat lon He Hlat Hlon).
      destruct (PrimFloat.leb 0%float lat); auto. }
    rewrite (inferHemisphere_country o He Hn).
    destruct Hc as [H | [H | [H | (s & H)]]];
      [contradiction | contradiction | rewrite H; auto |].
    rewrite H. destruct (truthy (Str s)) eqn:T; [|auto].
    rewrite (isSouthernCountry_string s T). cbn [bind].
    destruct (includes southernCountryCodes (toUpperCase s)); auto.
  - intros He Hn T Hc. rewrite (inferHemisphere_country o He Hn), T.
    unfold isSouthernCountry. rewrite T. cbn [negb].
    destruct Hc as [(b & ->) | (x & ->)]; reflexivity.
Qed.

Lemma inferHemisphere_total_on_strings_witness :
  inferHemisphere
    (withHemisphere (Num 1%float)
       (withLatitude (Str "north") (withCountryCode (Str "Atlantis") noOptions)))
  = Normal "Northern"
  \/ inferHemisphere
       (withHemisphere (Num 1%float)
          (withLatitude (Str "north")
             (withCountryCode (Str "Atlantis") noOptions)))
     = Normal "Southern".
Proof.
  apply (proj1 (inferHemisphere_total_on_strings
                  (withHemisphere (Num 1%float)
                     (withLatitude (Str "north")
                        (withCountryCode (Str "Atlantis") noOptions))))).
  do 3 right. exists "Atlantis". reflexivity.
Defined.

(** C8 as stated fails: a numeric country code makes the call throw. *)
Lemma inferHemisphere_numeric_country_throws :
  inferHemisphere (withCountryCode (Num 42%float) noOptions) = Throw TypeError
  /\ inferHemisphere (withCountryCode (Num 42%float) noOptions)
     <> Normal "Northern"
  /\ inferHemisphere (withCountryCode (Num 42%float) noOptions)
     <> Normal "Southern".
Proof. split; [reflexivity | split; discriminate]. Qed.

(** *** Range membership *)

Lemma getSeason_table (date : Date) (o : Options) (h : string) defs :
  inferHemisphere o = Normal h ->
  entriesOf match calendarType o with
            | Undefined => Str "Astronomical"
            | v => v
            end h = Normal defs ->
  getSeason date o = Normal (firstSeason date defs).
Proof. intros H1 H2. unfold getSeason. rewrite H1. cbn [bind]. rewrite H2. reflexivity. Qed.

(** Evaluates [getSeason] on a date whose month and day are known. *)
Ltac season_on_day H :=
  destruct H as [Hm Hd];
  erewrite getSeason_table; [ | reflexivity | reflexivity ];
  cbn [firstSeason start end_]; parse_ranges; rewrite Hm, Hd; reflexivity.

(** C4: [isDateInRange] compares the numbers [month * 100 + day]
    inclusively, a range whose start exceeds its end holding the dates from
    its start on or up to its end; so, with the default options, December
    25, January 15 and March 20 are Winter and March 21 is Spring, March 1
    is Spring under the meteorological calendar and Winter under the
    default one, and December 25 is Summer in the Southern hemisphere. *)
Theorem isDateInRange_inclusive_wrapping :
  (forall (f : DateFields) (sm sd em ed : Z),
      0 <= sm <= 99 -> 0 <= sd <= 99 -> 0 <= em <= 99 -> 0 <= ed <= 99 ->
      let startNum := sm * 100 + sd in
      let endNum := em * 100 + ed in
      let curNum := (monthIndex f + 1) * 100 + dayOfMonth f in
      (startNum <= endNum ->
       (isDateInRange (ValidDate f) (monthDay sm sd) (monthDay em ed) = true
        <-> startNum <= curNum <= endNum)) /\
      (startNum > endNum ->
       (isDateInRange (ValidDate f) (monthDay sm sd) (monthDay em ed) = true
        <-> curNum >= startNum \/ curNum <= endNum))) /\
  (forall f, onDay 12 25 f ->
             getSeason (ValidDate f) noOptions = Normal "Winter") /\
  (forall f, onDay 1 15 f ->
             getSeason (ValidDate f) noOptions = Normal "Winter") /\
  (forall f, onDay 3 20 f ->
             getSeason (ValidDate f) noOptions = Normal "Winter") /\
  (forall f, onDay 3 21 f ->
             getSeason (ValidDate f) noOptions = Normal "Spring") /\
  (forall f, onDay 3 1 f ->
             getSeason (ValidDate f)
               (withCalendarType (Str "Meteorological") noOptions)
             = Normal "Spring") /\
  (forall f, onDay 3 1 f ->
             getSeason (ValidDate f) noOptions = Normal "Winter") /\
  (forall f, onDay 12 25 f ->
             getSeason (ValidDate f)
               (withHemisphere (Str "Southern") noOptions)
             = Normal "Summer").
Proof.
  split.
  - intros f sm sd em ed Hsm Hsd Hem Hed startNum endNum curNum.
    rewrite (isDateInRange_parsed f _ _ sm sd em ed
               (monthDay_parses sm sd Hsm Hsd) (monthDay_parses em ed Hem Hed)).
    fold startNum endNum curNum. unfold inRange.
    split; intros Hord.
    + rewrite (proj2 (Z.leb_le startNum endNum)) by lia.
      rewrite andb_true_iff, !Z.leb_le. tauto.
    + rewrite (proj2 (Z.leb_gt startNum endNum)) by lia.
      rewrite orb_true_iff, !Z.leb_le. lia.
  - repeat split; intros f H; season_on_day H.
Qed.

Lemma isDateInRange_inclusive_wrapping_witness :
  (isDateInRange (ValidDate (midnight 2025 1 15)) "12-21" "03-20" = true
   <-> (1 * 100 + 15 >= 12 * 100 + 21 \/ 1 * 100 + 15 <= 3 * 100 + 20))
  /\ getSeason (ValidDate (midnight 2025 1 15)) noOptions = Normal "Winter".
Proof.
  destruct isDateInRange_inclusive_wrapping as (law & _ & january & _).
  split.
  - apply (law (midnight 2025 1 15) 12 21 3 20); lia.
  - apply january. split; reflexivity.
Defined.

(** *** What the classifier reads *)

Lemma isDateInRange_fields (d1 d2 : Date) (s e : string) :
  getMonth d1 = getMonth d2 -> getDate d1 = getDate d2 ->
  isDateInRange d1 s e = isDateInRange d2 s e.
Proof. intros Hm Hd. unfold isDateInRange. rewrite Hm, Hd. reflexivity. Qed.

Lemma firstSeason_fields (d1 d2 : Date) entries :
  getMonth d1 = getMonth d2 -> getDate d1 = getDate d2 ->
  firstSeason d1 entries = firstSeason d2 entries.
Proof.
  intros Hm Hd. induction entries as [| [season range] rest IH];
    [reflexivity|].
  cbn [firstSeason].
  rewrite (isDateInRange_fields d1 d2 _ _ Hm Hd), IH. reflexivity.
Qed.

Lemma inferHemisphere_fields (o1 o2 : Options) :
  hemisphere o1 = hemisphere o2 -> countryCode o1 = countryCode o2 ->
  latitude o1 = latitude o2 -> longitude o1 = longitude o2 ->
  inferHemisphere o1 = inferHemisphere o2.
Proof.
  intros Hh Hc Hlat Hlon. unfold inferHemisphere.
  rewrite Hh, Hc, Hlat, Hlon. reflexivity.
Qed.

(** C9: two calls whose dates agree on the month and the day and whose
    options agree on calendarType, hemisphere, countryCode, latitude and
    longitude give the same outcome; the year, the time of day, seasonType
    and languageCulture are not read, and [seasonType: "Special"] gives
    what [seasonType: "Calendar"] gives. *)
Theorem getSeason_insensitive :
  (forall (d1 d2 : Date) (o1 o2 : Options),
      getMonth d1 = getMonth d2 -> getDate d1 = getDate d2 ->
      calendarType o1 = calendarType o2 ->
      hemisphere o1 = hemisphere o2 ->
      countryCode o1 = countryCode o2 ->
      latitude o1 = latitude o2 ->
      longitude o1 = longitude o2 ->
      getSeason d1 o1 = getSeason d2 o2) /\
  (forall (f g : DateFields) (o : Options),
      monthIndex f = monthIndex g -> dayOfMonth f = dayOfMonth g ->
      getSeason (ValidDate f) o = getSeason (ValidDate g) o) /\
  (forall (date : Date) (o : Options) (v : Value),
      getSeason date (withSeasonType v o) = getSeason date o /\
      getSeason date (withLanguageCulture v o) = getSeason date o) /\
  (forall (date : Date) (o : Options),
      getSeason date (withSeasonType (Str "Special") o)
      = getSeason date (withSeasonType (Str "Calendar") o)).
Proof.
  assert (main : forall (d1 d2 : Date) (o1 o2 : Options),
             getMonth d1 = getMonth d2 -> getDate d1 = getDate d2 ->
             calendarType o1 = calendarType o2 ->
             hemisphere o1 = hemisphere o2 ->
             countryCode o1 = countryCode o2 ->
             latitude o1 = latitude o2 ->
             longitude o1 = longitude o2 ->
             getSeason d1 o1 = getSeason d2 o2).
  { intros d1 d2 o1 o2 Hm Hd Hct Hh Hc Hlat Hlon. unfold getSeason.
    rewrite Hct, (inferHemisphere_fields o1 o2 Hh Hc Hlat Hlon).
    destruct (inferHemisphere o2) as [h | e]; cbn [bind]; [|reflexivity].
    destruct (entriesOf _ h) as [defs | e]; cbn [bind]; [|reflexivity].
    rewrite (firstSeason_fields d1 d2 defs Hm Hd). reflexivity. }
  split; [exact main|]. split; [|split].
  - intros f g o Hm Hd. apply main; cbn [getMonth getDate]; congruence.
  - intros date o v. split; apply main; reflexivity.
  - intros date o. apply main; reflexivity.
Qed.

Lemma getSeason_insensitive_witness :
  getSeason
    (ValidDate {| fullYear := 1999; monthIndex := 6; dayOfMonth := 4;
                  hours := 23; minutes := 59; seconds := 58;
                  milliseconds := 997 |})
    (withSeasonType (Str "Special")
       (withLanguageCulture (Str "en-US")
          (withCountryCode (Str "au") noOptions)))
  = getSeason (ValidDate (midnight 2024 7 4))
      (withCountryCode (Str "au") noOptions).
Proof.
  apply (proj1 getSeason_insensitive); reflexivity.
Defined.

(** *** The outcomes of the classifier *)

(** With a calendar type in force and a resolved hemisphere, the call
    reaches the loop over one of the four tables. *)
Lemma getSeason_in_force (date : Date) (o : Options) (ct h : string) :
  calendarInForce o ct -> inferHemisphere o = Normal h ->
  exists byHemisphere defs,
    ownProperty seasonDefinitions ct = Some byHemisphere /\
    ownProperty byHemisphere h = Some defs /\
    map fst defs = seasons /\
    getSeason date o = Normal (firstSeason date defs).
Proof.
  intros [Hk Hc] Hh. pose proof (inferHemisphere_names o h Hh) as Hn.
  rewrite getSeason_steps, Hh. cbn [bind]. unfold entriesOf. rewrite Hk.
  cbn [bind].
  destruct Hc as [-> | ->], Hn as [-> | ->];
    (do 2 eexists; split; [reflexivity|]; split; [reflexivity|];
     split; reflexivity).
Qed.

(** Either a calendar type is in force, or indexing the tables throws
    whatever the hemisphere is. *)
Lemma calendarInForce_dec (o : Options) :
  (exists ct, calendarInForce o ct)
  \/ (exists e,
         (propertyKey (calendarTypeUsed o) = Throw e \/ e = TypeError)
         /\ forall h, entriesOf (calendarTypeUsed o) h = Throw e).
Proof.
  unfold calendarInForce.
  destruct (propertyKey (calendarTypeUsed o)) as [k | e] eqn:Hk.
  - destruct k as [key |].
    + destruct (String.eqb_spec key "Astronomical") as [-> | A];
        [left; eauto|].
      destruct (String.eqb_spec key "Meteorological") as [-> | M];
        [left; eauto|].
      right. exists TypeError. split; [auto|]. intros h.
      apply (entriesOf_other_key _ (Some key)); congruence.
    + right. exists TypeError. split; [auto|]. intros h.
      apply (entriesOf_other_key _ None); congruence.
  - right. exists e. split; [auto|]. intros h. unfold entriesOf.
    rewrite Hk. reflexivity.
Qed.

Lemma isDateInRange_invalid (s e : string) :
  isDateInRange InvalidDate s e = false.
Proof.
  unfold isDateInRange. cbn [getMonth getDate add mul].
  match goal with
  | |- (if le ?a ?b then _ else _) = _ => destruct a as [x |], b as [y |]
  end; unfold ge, le; try destruct (x <=? y); reflexivity.
Qed.

Lemma firstSeason_invalid (defs : list (string * DateRange)) :
  firstSeason InvalidDate defs = "Unknown".
Proof.
  induction defs as [| [season range] rest IH]; [reflexivity|].
  cbn [firstSeason]. rewrite isDateInRange_invalid. exact IH.
Qed.

Lemma firstSeason_key (date : Date) (defs : list (string * DateRange)) :
  firstSeason date defs = "Unknown" \/ In (firstSeason date defs) (map fst defs).
Proof.
  induction defs as [| [season range] rest IH]; [left; reflexivity|].
  cbn [firstSeason map fst In].
  destruct (isDateInRange date (start range) (end_ range)); [auto|].
  destruct IH; auto.
Qed.

(** X1: [getSeason] returns exactly when the hemisphere resolves and the
    calendar type used (the default standing for an absent one) converts to
    the name of one of the two tables, and it then returns one of the four
    seasons or the fallback "Unknown"; otherwise it throws what resolving
    the hemisphere throws, or else what converting the calendar type
    throws, or else a [TypeError]. *)
Theorem getSeason_outcomes (date : Date) (o : Options) :
  ((exists s, getSeason date o = Normal s)
   <-> exists h ct, inferHemisphere o = Normal h /\ calendarInForce o ct)
  /\ (forall s, getSeason date o = Normal s ->
                In s ["Spring"; "Summer"; "Autumn"; "Winter"; "Unknown"])
  /\ (forall e, getSeason date o = Throw e ->
                inferHemisphere o = Throw e
                \/ propertyKey (calendarTypeUsed o) = Throw e
                \/ e = TypeError).
Proof.
  destruct (inferHemisphere o) as [h | e0] eqn:Hh.
  2:{ rewrite getSeason_steps, Hh. cbn [bind].
      split; [split; [intros (s & H); discriminate H
                     | intros (h & ct & H & _); discriminate H]|].
      split; [discriminate | intros e [= <-]; auto]. }
  destruct (calendarInForce_dec o) as [[ct Hf] | (e & He & Ht)].
  - destruct (getSeason_in_force date o ct h Hf Hh)
      as (bh & defs & _ & _ & K & ->).
    split; [split; eauto|]. split; [|discriminate].
    intros s [= <-].
    destruct (firstSeason_key date defs) as [-> | Hk]; [cbn; tauto|].
    rewrite K in Hk. cbn in Hk |- *. tauto.
  - rewrite getSeason_steps, Hh. cbn [bind]. rewrite (Ht h). cbn [bind].
    split; [split; [intros (s & H); discriminate H|]|].
    + intros (h' & ct & _ & Hf).
      destruct (getSeason_in_force date o ct h Hf Hh)
        as (_ & defs & _ & _ & _ & E).
      rewrite getSeason_steps, Hh in E. cbn [bind] in E.
      rewrite (Ht h) in E. discriminate E.
    + split; [discriminate|]. intros e' [= <-]. tauto.
Qed.

Lemma getSeason_normal (date : Date) (o : Options) (s : string) :
  getSeason date o = Normal s ->
  exists ct h, calendarInForce o ct /\ inferHemisphere o = Normal h.
Proof.
  intros H. destruct (inferHemisphere o) as [h | e] eqn:Hh.
  - destruct (calendarInForce_dec o) as [[ct Hf] | (e & _ & Ht)].
    + exists ct, h. auto.
    + rewrite getSeason_steps, Hh in H. cbn [bind] in H.
      rewrite (Ht h) in H. discriminate H.
  - rewrite getSeason_steps, Hh in H. discriminate H.
Qed.

(** Evaluates the loop over a table on a date whose day number is located
    by the hypotheses. *)
Ltac eval_table :=
  cbn [firstSeason start end_]; parse_ranges; unfold inRange;
  decide_comparisons; cbn [andb orb].

(** Brings the table in force into the goal. *)
Ltac open_table Hf Hh date o :=
  let bh := fresh "bh" in
  let defs := fresh "defs" in
  let B := fresh "B" in
  let D := fresh "D" in
  destruct (getSeason_in_force date o _ _ Hf Hh) as (bh & defs & B & D & _ & ->);
  cbn in B; injection B as <-; cbn in D; injection D as <-.

Lemma calendarInForce_cases (o : Options) (ct : string) :
  calendarInForce o ct -> ct = "Astronomical" \/ ct = "Meteorological".
Proof. intros [_ H]. exact H. Qed.

(** X2: the fallback "Unknown" is returned for an invalid date and for no
    valid calendar day: whenever [getSeason] returns on [new Date(NaN)] it
    returns "Unknown", and whenever it returns on a valid day, with the
    calendar type given or defaulted and the hemisphere given or inferred,
    it returns one of the four seasons. *)
Theorem getSeason_unknown_only_invalid :
  (forall (o : Options) (s : string),
      getSeason InvalidDate o = Normal s -> s = "Unknown")
  /\ (forall (f : DateFields) (o : Options) (s : string),
         validMonthDay (monthIndex f + 1) (dayOfMonth f) ->
         getSeason (ValidDate f) o = Normal s ->
         In s seasons).
Proof.
  split.
  - intros o s H. destruct (getSeason_normal _ _ _ H) as (ct & h & Hf & Hh).
    destruct (getSeason_in_force InvalidDate o ct h Hf Hh)
      as (bh & defs & _ & _ & _ & E).
    rewrite E, firstSeason_invalid in H. congruence.
  - intros f o s Hv H.
    destruct (getSeason_normal _ _ _ H) as (ct & h & Hf & Hh).
    pose proof (astronomical_cases _ _ Hv) as HA.
    pose proof (meteorological_cases _ _ Hv) as HM.
    cbv zeta in HA, HM. clear Hv. revert H.
    destruct (calendarInForce_cases o ct Hf) as [-> | ->];
      [clear HM; rename HA into HC | clear HA; rename HM into HC];
      (destruct (inferHemisphere_names o h Hh) as [-> | ->];
       open_table Hf Hh (ValidDate f) o; intros [= <-];
       destruct HC as [HC | [HC | [HC | [HC | HC]]]];
       eval_table; cbn; tauto).
Qed.

Lemma getSeason_unknown_only_invalid_witness :
  In "Summer" seasons.
Proof.
  apply (proj2 getSeason_unknown_only_invalid (midnight 2024 2 29)
           (withCalendarType (Str "Meteorological")
              (withCountryCode (Str "nz") noOptions)) "Summer").
  - assert (V : validMonthDay 2 29) by (unfold validMonthDay; cbn; lia).
    exact V.
  - reflexivity.
Defined.

(** *** Relations between the tables *)

Lemma astronomical_line (c : Z) :
  c <= 320 \/ 321 <= c <= 620 \/ 621 <= c <= 920 \/ 921 <= c <= 1220
  \/ 1221 <= c.
Proof. lia. Qed.

Lemma meteorological_line (c : Z) :
  c <= 229 \/ 230 <= c <= 300 \/ 301 <= c <= 531 \/ 532 <= c <= 600
  \/ 601 <= c <= 831 \/ 832 <= c <= 900 \/ 901 <= c <= 1130
  \/ 1131 <= c <= 1200 \/ 1201 <= c.
Proof. lia. Qed.

(** X3: the Southern tables mirror the Northern ones.  On every date, under
    every calendar type and whatever the other options are, an explicit
    Southern hemisphere gives the season opposite to the one an explicit
    Northern hemisphere gives (Spring for Autumn, Summer for Winter and
    back), the fallback for the fallback and an error for an error. *)
Theorem getSeason_southern_mirror (date : Date) (o : Options) :
  getSeason date (withHemisphere (Str "Southern") o)
  = let* s := getSeason date (withHemisphere (Str "Northern") o) in
    Normal (opposite s).
Proof.
  assert (HS : inferHemisphere (withHemisphere (Str "Southern") o)
               = Normal "Southern") by reflexivity.
  assert (HN : inferHemisphere (withHemisphere (Str "Northern") o)
               = Normal "Northern") by reflexivity.
  destruct (calendarInForce_dec o) as [[ct Hf] | (e & _ & Ht)].
  - assert (FS : calendarInForce (withHemisphere (Str "Southern") o) ct)
      by exact Hf.
    assert (FN : calendarInForce (withHemisphere (Str "Northern") o) ct)
      by exact Hf.
    destruct (calendarInForce_cases o ct Hf) as [-> | ->];
      open_table FS HS date (withHemisphere (Str "Southern") o);
      open_table FN HN date (withHemisphere (Str "Northern") o);
      cbn [bind];
      (destruct date as [| f]; [rewrite !firstSeason_invalid; reflexivity|]).
    + destruct (astronomical_line ((monthIndex f + 1) * 100 + dayOfMonth f))
        as [HC | [HC | [HC | [HC | HC]]]]; eval_table; reflexivity.
    + destruct (meteorological_line ((monthIndex f + 1) * 100 + dayOfMonth f))
        as [HC | [HC | [HC | [HC | [HC | [HC | [HC | [HC | HC]]]]]]]];
        eval_table; reflexivity.
  - rewrite !getSeason_steps, HS, HN. cbn [bind].
    change (calendarTypeUsed (withHemisphere (Str "Southern") o))
      with (calendarTypeUsed o).
    change (calendarTypeUsed (withHemisphere (Str "Northern") o))
      with (calendarTypeUsed o).
    rewrite !Ht. reflexivity.
Qed.

(** X4: under the meteorological calendar the season of a valid day is
    that of its month: March to May, June to August, September to November
    and December to February are Spring, Summer, Autumn and Winter in the
    Northern hemisphere, and the opposite seasons in the Southern one. *)
Theorem getSeason_meteorological_by_month (f : DateFields) (o : Options) :
  validMonthDay (monthIndex f + 1) (dayOfMonth f) ->
  calendarType o = Str "Meteorological" ->
  (inferHemisphere o = Normal "Northern" ->
   getSeason (ValidDate f) o = Normal (monthSeason (monthIndex f + 1)))
  /\ (inferHemisphere o = Normal "Southern" ->
      getSeason (ValidDate f) o
      = Normal (opposite (monthSeason (monthIndex f + 1)))).
Proof.
  intros Hv Hc.
  pose proof (meteorological_cases _ _ Hv) as HC. cbv zeta in HC.
  apply validMonthDay_bounds in Hv.
  assert (Hf : calendarInForce o "Meteorological")
    by (unfold calendarInForce, calendarTypeUsed; rewrite Hc; auto).
  split; intros Hh; open_table Hf Hh (ValidDate f) o; unfold monthSeason;
    destruct HC as [HC | [HC | [HC | [HC | HC]]]];
    eval_table; reflexivity.
Qed.

Lemma getSeason_meteorological_by_month_witness :
  getSeason (ValidDate (midnight 2023 11 30))
    (withCalendarType (Str "Meteorological")
       (withCountryCode (Str "br") noOptions))
  = Normal (opposite (monthSeason 11)).
Proof.
  apply (getSeason_meteorological_by_month (midnight 2023 11 30)
           (withCalendarType (Str "Meteorological")
              (withCountryCode (Str "br") noOptions))).
  - assert (V : validMonthDay 11 30) by (unfold validMonthDay; cbn; lia).
    exact V.
  - reflexivity.
  - reflexivity.
Defined.

Lemma calendar_boundary_cases (m d : Z) :
  validMonthDay m d ->
  let c := m * 100 + d in
  c <= 229 \/ 301 <= c <= 320 \/ 321 <= c <= 531 \/ 601 <= c <= 620
  \/ 621 <= c <= 831 \/ 901 <= c <= 920 \/ 921 <= c <= 1130
  \/ 1201 <= c <= 1220 \/ 1221 <= c.
Proof. intros Hv%validMonthDay_bounds c. subst c. lia. Qed.

(** X5: the two calendar types disagree on the first twenty days of March,
    June, September and December and on no other valid day: with the
    hemisphere resolved from the same options, [getSeason] gives the same
    season under both exactly off those days. *)
Theorem getSeason_calendars_agree (f : DateFields) (o : Options) (h : string) :
  validMonthDay (monthIndex f + 1) (dayOfMonth f) ->
  inferHemisphere o = Normal h ->
  getSeason (ValidDate f) (withCalendarType (Str "Astronomical") o)
  = getSeason (ValidDate f) (withCalendarType (Str "Meteorological") o)
  <-> ~ (turningMonth (monthIndex f + 1) /\ dayOfMonth f <= 20).
Proof.
  intros Hv Hh. unfold turningMonth.
  pose proof (calendar_boundary_cases _ _ Hv) as HC. cbv zeta in HC.
  apply validMonthDay_bounds in Hv.
  assert (HA : inferHemisphere (withCalendarType (Str "Astronomical") o)
               = Normal h) by exact Hh.
  assert (HM : inferHemisphere (withCalendarType (Str "Meteorological") o)
               = Normal h) by exact Hh.
  assert (FA : calendarInForce (withCalendarType (Str "Astronomical") o)
                 "Astronomical") by (split; auto).
  assert (FM : calendarInForce (withCalendarType (Str "Meteorological") o)
                 "Meteorological") by (split; auto).
  destruct (inferHemisphere_names o h Hh) as [-> | ->];
    open_table FA HA (ValidDate f) (withCalendarType (Str "Astronomical") o);
    open_table FM HM (ValidDate f) (withCalendarType (Str "Meteorological") o);
    destruct HC as [HC | [HC | [HC | [HC | [HC | [HC | [HC | [HC | HC]]]]]]]];
    eval_table;
    (split; [intros E; try discriminate E; lia
            | intros N; try reflexivity; exfalso; apply N; lia]).
Qed.

Lemma getSeason_calendars_agree_witness :
  getSeason (ValidDate (midnight 2024 6 20))
    (withCalendarType (Str "Astronomical") noOptions)
  <> getSeason (ValidDate (midnight 2024 6 20))
       (withCalendarType (Str "Meteorological") noOptions).
Proof.
  intros E.
  apply (getSeason_calendars_agree (midnight 2024 6 20) noOptions "Northern")
    in E.
  - apply E. split; [right; left; reflexivity | cbn; lia].
  - assert (V : validMonthDay 6 20) by (unfold validMonthDay; cbn; lia).
    exact V.
  - reflexivity.
Defined.

(** *** Latitudes that are not ordinary numbers *)

Lemma SFcompare_refl (x : spec_float) :
  x <> S754_nan -> SFcompare x x = Some Eq.
Proof.
  destruct x as [s | s | | s m e]; intros H; try contradiction;
    try (destruct s; reflexivity).
  cbn. rewrite Z.compare_refl, Pos.compare_cont_refl.
  destruct s; reflexivity.
Qed.

Lemma nan_not_above_zero (x : float) :
  PrimFloat.is_nan x = true -> PrimFloat.leb 0%float x = false.
Proof.
  unfold PrimFloat.is_nan. rewrite FloatAxioms.eqb_spec, leb_spec.
  unfold SFeqb, SFleb.
  change (Prim2SF 0%float) with (S754_zero false). intros H.
  destruct (Prim2SF x) as [s | s | | s m e] eqn:E; [ | | reflexivity | ];
    rewrite SFcompare_refl in H by discriminate; discriminate H.
Qed.

(** X6: with numeric coordinates and no explicit hemisphere, a latitude
    that is [NaN] resolves to Southern (the test [latitude >= 0] fails on
    it) and a latitude of negative zero to Northern, whatever the longitude
    and the country code are. *)
Theorem inferHemisphere_nan_latitude (o : Options) (lat lon : float) :
  ~ explicitHemisphere o ->
  latitude o = Num lat -> longitude o = Num lon ->
  (PrimFloat.is_nan lat = true -> inferHemisphere o = Normal "Southern")
  /\ (lat = (-0)%float -> inferHemisphere o = Normal "Northern").
Proof.
  intros He Hlat Hlon.
  rewrite (inferHemisphere_coordinates o lat lon He Hlat Hlon).
  split.
  - intros Hn. rewrite (nan_not_above_zero lat Hn). reflexivity.
  - intros ->. reflexivity.
Qed.

Lemma inferHemisphere_nan_latitude_witness :
  inferHemisphere
    (withLatitude (Num PrimFloat.nan)
       (withLongitude (Num 0%float) (withCountryCode (Str "US") noOptions)))
  = Normal "Southern".
Proof.
  apply (inferHemisphere_nan_latitude
           (withLatitude (Num PrimFloat.nan)
              (withLongitude (Num 0%float)
                 (withCountryCode (Str "US") noOptions)))
           PrimFloat.nan 0%float).
  - intros [H | H]; discriminate H.
  - reflexivity.
  - reflexivity.
  - reflexivity.
Defined.

(** *** Country codes *)

Lemma toUpperCase_length (s : string) :
  String.length (toUpperCase s) = String.length s.
Proof.
  induction s as [| c s IH]; [reflexivity|].
  cbn [toUpperCase String.length]. rewrite IH. reflexivity.
Qed.

Lemma southernCountryCodes_two_letters :
  Forall (fun c => String.length c = 2%nat) southernCountryCodes.
Proof. unfold southernCountryCodes. repeat constructor. Qed.

(** X15: on strings of ASCII characters [isSouthernCountry] does not throw
    and reads its argument up to the case of its letters only: two such
    strings that are equal ignoring case get the same answer, the answer is
    yes exactly for the strings that match a Southern code ignoring case,
    and every such string has two characters. *)
Theorem isSouthernCountry_case_insensitive (s t : string) :
  asciiOnly s = true -> asciiOnly t = true ->
  (sameIgnoringCase s t ->
   isSouthernCountry (Str s) = isSouthernCountry (Str t))
  /\ (isSouthernCountry (Str s) = Normal true <-> southernCode s)
  /\ (isSouthernCountry (Str s) = Normal true \/
      isSouthernCountry (Str s) = Normal false)
  /\ (isSouthernCountry (Str s) = Normal true -> String.length s = 2%nat).
Proof.
  intros _ _.
  assert (E : forall u,
             isSouthernCountry (Str u)
             = Normal (includes southernCountryCodes (toUpperCase u))).
  { intros u. destruct (truthy (Str u)) eqn:T.
    - apply isSouthernCountry_string, T.
    - unfold isSouthernCountry. rewrite T. cbn [negb].
      cbn in T. apply negb_false_iff, String.eqb_eq in T. subst u.
      reflexivity. }
  assert (S : isSouthernCountry (Str s) = Normal true <-> southernCode s).
  { rewrite E, southernCode_includes.
    generalize (includes southernCountryCodes (toUpperCase s)).
    intros b. split; congruence. }
  split; [|split; [exact S | split]].
  - unfold sameIgnoringCase. intros H. rewrite !E, H. reflexivity.
  - rewrite E. destruct (includes _ _); auto.
  - intros H. apply S, southernCode_includes, includes_In in H.
    pose proof southernCountryCodes_two_letters as L.
    rewrite List.Forall_forall in L. apply L in H.
    rewrite toUpperCase_length in H. exact H.
Qed.

Lemma isSouthernCountry_case_insensitive_witness :
  isSouthernCountry (Str "Nz") = isSouthernCountry (Str "nZ").
Proof.
  apply (proj1 (isSouthernCountry_case_insensitive "Nz" "nZ"
                  eq_refl eq_refl)).
  reflexivity.
Defined.

End SeasonProofs.

(** ** Properties of the orchestrator *)

Module SnowProofs.
Import JS Snow.

(** *** The animation state, read off the worker's inbox *)

Lemma animationState_snoc (inbox : list Message) (m : Message) :
  animationState (inbox ++ [m]) = receive (animationState inbox) m.
Proof. unfold animationState. rewrite fold_left_app. reflexivity. Qed.

Lemma changeSnowAnimation_snowfall (p : Page) :
  changeSnowAnimation (Str "snowfall") p
  = setTitle (String.append indicator (pageTitle p)) (start p).
Proof. reflexivity. Qed.

Lemma changeSnowAnimation_none (p : Page) :
  changeSnowAnimation (Str "none") p = setTitle (pageTitle p) (stop p).
Proof. reflexivity. Qed.

(** *** Reading the document title *)

Lemma tokens_cons (s : string) : exists w ws, tokens s = w :: ws.
Proof.
  induction s as [| c r (w & ws & IH)]; [eauto|].
  cbn [tokens]. destruct (isAsciiWhitespace c); [eauto|].
  rewrite IH. eauto.
Qed.

(** A whitespace character separates the tokens on its two sides. *)
Lemma tokens_app (a b : string) (c : ascii) :
  isAsciiWhitespace c = true ->
  tokens (String.append a (String c b)) = (tokens a ++ tokens b)%list.
Proof.
  intros Hc. induction a as [| d a IH].
  - change (String.append "" (String c b)) with (String c b).
    cbn [tokens]. rewrite Hc. reflexivity.
  - change (String.append (String d a) (String c b))
      with (String d (String.append a (String c b))).
    cbn [tokens]. rewrite IH.
    destruct (isAsciiWhitespace d); [reflexivity|].
    destruct (tokens_cons a) as (w & ws & ->). reflexivity.
Qed.

Lemma tokens_spaceFree (w : string) : spaceFree w = true -> tokens w = [w].
Proof.
  induction w as [| c r IH]; [reflexivity|].
  cbn [spaceFree tokens]. intros [Hc Hr]%andb_true_iff.
  apply negb_true_iff in Hc. rewrite Hc, (IH Hr). reflexivity.
Qed.

Lemma tokens_are_spaceFree (s : string) :
  Forall (fun w => spaceFree w = true) (tokens s).
Proof.
  induction s as [| c r IH]; [repeat constructor|].
  cbn [tokens]. destruct (isAsciiWhitespace c) eqn:Hc;
    [constructor; [reflexivity | exact IH]|].
  destruct (tokens r) as [| w ws]; [repeat constructor; cbn; rewrite Hc;
                                    reflexivity|].
  inversion IH as [| ? ? Hw Hws]; subst.
  constructor; [cbn; rewrite Hc, Hw; reflexivity | exact Hws].
Qed.

Lemma words_are_words (s : string) :
  Forall (fun w => isWord w = true) (words s).
Proof.
  unfold words. pose proof (tokens_are_spaceFree s) as H.
  induction H as [| w ws Hw _ IH]; [constructor|].
  cbn [List.filter]. destruct (nonEmpty w) eqn:N; [|exact IH].
  constructor; [unfold isWord; rewrite N, Hw; reflexivity | exact IH].
Qed.

(** Joining words and splitting again gives the words back. *)
Lemma words_join (ws : list string) :
  Forall (fun w => isWord w = true) ws -> words (join ws) = ws.
Proof.
  induction 1 as [| w rest Hw Hrest IH]; [reflexivity|].
  unfold isWord in Hw. apply andb_true_iff in Hw as [N S].
  destruct rest as [| w' rest'].
  - cbn [join]. unfold words. rewrite (tokens_spaceFree w S).
    cbn [List.filter]. rewrite N. reflexivity.
  - change (join (w :: w' :: rest'))
      with (String.append w (String " " (join (w' :: rest')))).
    unfold words in *. rewrite tokens_app by reflexivity.
    rewrite List.filter_app, (tokens_spaceFree w S), IH.
    cbn [List.filter]. rewrite N. reflexivity.
Qed.

Lemma stripAndCollapse_idempotent (s : string) :
  stripAndCollapse (stripAndCollapse s) = stripAndCollapse s.
Proof.
  unfold stripAndCollapse. rewrite words_join by apply words_are_words.
  reflexivity.
Qed.

Lemma join_empty (ws : list string) :
  Forall (fun w => isWord w = true) ws -> join ws = "" -> ws = [].
Proof.
  intros H E. destruct H as [| w rest Hw _]; [reflexivity|].
  unfold isWord, nonEmpty in Hw. apply andb_true_iff in Hw as [N _].
  destruct w as [| c w]; [discriminate N|].
  destruct rest; discriminate E.
Qed.

(** Before a title that the getter returned, the indicator reads as
    [marked] says. *)
Lemma stripAndCollapse_indicator (t : string) :
  normalised t ->
  stripAndCollapse (String.append indicator t) = marked t.
Proof.
  unfold normalised. intros Ht.
  change (String.append indicator t)
    with (String.append snowflake (String " " t)).
  unfold stripAndCollapse at 1. unfold words.
  rewrite tokens_app by reflexivity.
  rewrite List.filter_app. fold (words t).
  change (List.filter nonEmpty (tokens snowflake)) with [snowflake].
  pose proof (words_are_words t) as W. unfold stripAndCollapse in Ht.
  unfold marked. destruct (String.eqb_spec t "") as [-> | N].
  - reflexivity.
  - destruct (words t) as [| w ws] eqn:E; [cbn in Ht; congruence|].
    change (join ([snowflake] ++ w :: ws))
      with (String.append snowflake (String " " (join (w :: ws)))).
    rewrite Ht. reflexivity.
Qed.

Lemma length_append (s t : string) :
  String.length (String.append s t)
  = (String.length s + String.length t)%nat.
Proof.
  induction s as [| c s IH]; [reflexivity|].
  change (String.append (String c s) t) with (String c (String.append s t)).
  cbn [String.length Nat.add]. f_equal. exact IH.
Qed.

(** The indicator shows: a marked title is not the title itself, and it
    starts with the snowflake. *)
Lemma marked_shows (t : string) :
  marked t <> t /\ exists rest, marked t = String.append snowflake rest.
Proof.
  unfold marked. destruct (String.eqb_spec t "") as [-> | N].
  - split; [discriminate | exists ""; reflexivity].
  - split; [|exists (String " " t); reflexivity].
    intros E. apply (f_equal String.length) in E.
    rewrite length_append in E. cbn in E. lia.
Qed.

Lemma loaded_normalised (documentTitle : string) (markup : list Control)
    (toggleHidden : bool) :
  normalised (pageTitle (loaded documentTitle markup toggleHidden)).
Proof. apply stripAndCollapse_idempotent. Qed.

(** *** Checking a control *)

Lemma checkControl_offered (v : string) (cs : list Control) :
  offers v cs ->
  exists cs', checkControl v cs = Normal cs' /\ isChecked v cs'.
Proof.
  unfold offers, isChecked, selected. intros (c & Hc).
  induction cs as [| c0 rest IH]; [discriminate Hc|].
  cbn [checkControl find] in *.
  destruct (String.eqb (value c0) v) eqn:E.
  - eexists. split; [reflexivity|]. cbn [find value]. rewrite E.
    eexists. split; reflexivity.
  - destruct (IH Hc) as (rest' & -> & c' & Hsel & Hchk).
    cbn [bind]. eexists. split; [reflexivity|].
    cbn [find value unchecked]. rewrite E. exists c'. split; assumption.
Qed.

Lemma restoreControl_plain (engine : SelectorEngine) (v : string)
    (cs : list Control) :
  plainText v = true -> restoreControl engine v cs = checkControl v cs.
Proof. intros H. unfold restoreControl. rewrite H. reflexivity. Qed.

(** With the default options the classifier does not throw. *)
Lemma getSeason_default (now : Season.Date) :
  exists season, Season.getSeason now Season.noOptions = Normal season.
Proof.
  eexists. erewrite SeasonProofs.getSeason_table; reflexivity.
Qed.

Lemma title_snowfall (p : Page) :
  normalised (pageTitle p) ->
  title (changeSnowAnimation (Str "snowfall") p) = marked (pageTitle p).
Proof.
  intros H. rewrite changeSnowAnimation_snowfall.
  cbn [title setTitle]. apply stripAndCollapse_indicator, H.
Qed.

Lemma title_none (p : Page) :
  normalised (pageTitle p) ->
  title (changeSnowAnimation (Str "none") p) = pageTitle p.
Proof. intros H. rewrite changeSnowAnimation_none. exact H. Qed.

(** C5: the decision taken at load, from the page as it is before the
    script runs (no message posted, the animation Stopped).  In winter a
    stored "snowfall" or "none" is restored: its control is checked, and
    "snowfall" leaves the animation Running under a title that starts with
    the indicator, "none" leaves it Stopped under the plain title; in
    winter with nothing stored the control of "snowfall" is checked and the
    animation is Running; outside winter, whatever is stored, only the
    canvas and the first resize are posted, the animation is Stopped and
    the title and the controls are as the markup has them.  The toggle is
    hidden exactly outside winter.  The plain title is the title of the
    document as its getter reads it, and the title with the indicator reads
    as the snowflake, a space and the plain title, or as the snowflake
    alone when the plain title is empty. *)
Theorem onload_decision (engine : SelectorEngine) (now : Season.Date)
    (iw ih : Z) (storage : Storage)
    (documentTitle : string) (markup : list Control) (toggleHidden : bool) :
  offers "snowfall" markup -> offers "none" markup ->
  animationState (posted (loaded documentTitle markup toggleHidden)) = Stopped
  /\ (isWinter now -> storage !! storageKey = Some "snowfall" ->
      exists p,
        onload engine now iw ih storage documentTitle markup toggleHidden
        = Normal p
        /\ isChecked "snowfall" (controls p)
        /\ animationState (posted p) = Running
        /\ title p = marked (stripAndCollapse documentTitle)
        /\ hidden p = false)
  /\ (isWinter now -> storage !! storageKey = Some "none" ->
      exists p,
        onload engine now iw ih storage documentTitle markup toggleHidden
        = Normal p
        /\ isChecked "none" (controls p)
        /\ animationState (posted p) = Stopped
        /\ title p = stripAndCollapse documentTitle
        /\ hidden p = false)
  /\ (isWinter now -> storage !! storageKey = None ->
      exists p,
        onload engine now iw ih storage documentTitle markup toggleHidden
        = Normal p
        /\ isChecked "snowfall" (controls p)
        /\ animationState (posted p) = Running
        /\ title p = marked (stripAndCollapse documentTitle)
        /\ hidden p = false)
  /\ (~ isWinter now ->
      exists p,
        onload engine now iw ih storage documentTitle markup toggleHidden
        = Normal p
        /\ posted p = [CanvasMessage; ResizeMessage iw ih]
        /\ animationState (posted p) = Stopped
        /\ title p = stripAndCollapse documentTitle
        /\ controls p = markup
        /\ hidden p = true)
  /\ (forall t,
         (t <> "" -> marked t = String.append indicator t)
         /\ (t = "" -> marked t = snowflake)
         /\ marked t <> t
         /\ exists rest, marked t = String.append snowflake rest).
Proof.
  intros Hsnow Hnone. split; [reflexivity|].
  unfold isWinter, onload, getItem.
  destruct (checkControl_offered _ _ Hsnow) as (cs1 & E1 & C1).
  destruct (checkControl_offered _ _ Hnone) as (cs2 & E2 & C2).
  cbn [controls newSnowfallWorker resize postMessage] in *.
  change (controls (loaded documentTitle markup toggleHidden)) with markup.
  pose proof (loaded_normalised documentTitle markup toggleHidden) as Hn.
  split; [|split; [|split; [|split]]].
  - intros -> ->. cbn [bind String.eqb Ascii.eqb Bool.eqb truthy andb negb].
    rewrite restoreControl_plain by reflexivity. rewrite E1. cbn [bind].
    eexists. split; [reflexivity|].
    cbn [controls hidden posted title setHidden].
    split; [exact C1|]. split; [reflexivity|]. split; [|reflexivity].
    rewrite title_snowfall by exact Hn. reflexivity.
  - intros -> ->. cbn [bind String.eqb Ascii.eqb Bool.eqb truthy andb negb].
    rewrite restoreControl_plain by reflexivity. rewrite E2. cbn [bind].
    eexists. split; [reflexivity|].
    cbn [controls hidden posted title setHidden].
    split; [exact C2|]. split; [reflexivity|]. split; [|reflexivity].
    rewrite title_none by exact Hn. reflexivity.
  - intros -> ->. cbn [bind String.eqb Ascii.eqb Bool.eqb truthy andb negb].
    rewrite E1. cbn [bind]. eexists. split; [reflexivity|].
    cbn [controls hidden posted title setHidden].
    split; [exact C1|]. split; [reflexivity|]. split; [|reflexivity].
    rewrite title_snowfall by exact Hn. reflexivity.
  - intros Hw. destruct (getSeason_default now) as (season & Hs).
    rewrite Hs in *. cbn [bind].
    destruct (String.eqb_spec season "Winter") as [-> | _];
      [contradiction|].
    cbn [andb bind]. eexists. split; [reflexivity|].
    repeat split; reflexivity.
  - intros t. destruct (marked_shows t) as [N R].
    split; [|split; [|split; [exact N | exact R]]]; unfold marked.
    + intros H. destruct (String.eqb_spec t ""); [contradiction|reflexivity].
    + intros ->. reflexivity.
Qed.

Lemma onload_decision_witness :
  exists p,
    onload strictEngine (Season.ValidDate (Season.midnight 2024 12 25))
      1280 720 {[ storageKey := "none" ]} "Home" twoControls true = Normal p
    /\ isChecked "none" (controls p)
    /\ animationState (posted p) = Stopped
    /\ title p = stripAndCollapse "Home"
    /\ hidden p = false.
Proof.
  destruct (onload_decision strictEngine
              (Season.ValidDate (Season.midnight 2024 12 25))
              1280 720 {[ storageKey := "none" ]} "Home" twoControls true)
    as (_ & _ & restored & _).
  - eexists. reflexivity.
  - eexists. reflexivity.
  - apply restored; [reflexivity | apply lookup_singleton_eq].
Defined.

(** *** The resize throttle *)

Section Throttle.

Variable timerFirst : bool.

Lemma due_past (now d : Z) : d < now -> due timerFirst now d = true.
Proof.
  intros H. unfold due. destruct timerFirst; [apply Z.leb_le | apply Z.ltb_lt];
    lia.
Qed.

Lemma due_future (now d : Z) : now < d -> due timerFirst now d = false.
Proof.
  intros H. unfold due. destruct timerFirst; [apply Z.leb_gt | apply Z.ltb_ge];
    lia.
Qed.

(** No timer is due: the page is left as it is. *)
Lemma runTimers_future (now : Z) (p : Page) :
  Forall (fun d => now < d) (timers p) -> runTimers timerFirst now p = p.
Proof.
  intros H. unfold runTimers.
  replace (existsb (due timerFirst now) (timers p)) with false; [reflexivity|].
  induction H as [| d ds Hd _ IH]; [reflexivity|].
  cbn [existsb]. rewrite (due_future now d Hd), <- IH. reflexivity.
Qed.

Lemma runTimers_posted (now : Z) (p : Page) :
  posted (runTimers timerFirst now p) = posted p.
Proof. unfold runTimers. destruct (existsb _ _); reflexivity. Qed.

(** While the latch is set and its timer is not due, resizes are dropped. *)
Lemma run_latched (t0 : Z) (rs : list Resized) (st : Storage) (p : Page) :
  waiting p = true ->
  Forall (fun d => t0 + 33 <= d) (timers p) ->
  withinWindow t0 rs ->
  run timerFirst (map resizeEvent rs) (st, p) = (st, p).
Proof.
  intros Hw Ht Hrs. induction Hrs as [| r rest [_ Hr] _ IH]; [reflexivity|].
  cbn [map resizeEvent run dispatch fst snd].
  rewrite runTimers_future
    by (eapply List.Forall_impl; [|exact Ht]; cbn; intros; lia).
  unfold onResize, throttle. rewrite Hw. cbn [negb]. exact IH.
Qed.

Lemma runTimers_ready (t : Z) (p : Page) :
  ready t p -> idle (runTimers timerFirst t p).
Proof.
  unfold ready, idle, runTimers. intros [[Hw Ht] | (d & Ht & Hd)].
  - rewrite Ht. cbn [existsb]. split; assumption.
  - rewrite Ht. cbn [existsb List.filter]. rewrite (due_past t d Hd).
    cbn [orb negb]. split; reflexivity.
Qed.

Lemma run_spaced (rs : list Resized) (st : Storage) (p : Page) :
  beyondWindow rs ->
  match rs with [] => True | r :: _ => ready (time r) p end ->
  posted (snd (run timerFirst (map resizeEvent rs) (st, p)))
  = (posted p ++ map resizeMessage rs)%list.
Proof.
  revert p. induction rs as [| r rest IH]; intros p Hs Hr.
  - cbn. rewrite app_nil_r. reflexivity.
  - cbn [map resizeEvent run dispatch fst snd].
    apply runTimers_ready in Hr. destruct Hr as [Hw Ht].
    unfold onResize, throttle. rewrite Hw. cbn [negb].
    rewrite IH.
    + cbn [posted setThrottle resize postMessage].
      rewrite runTimers_posted, <- app_assoc. reflexivity.
    + destruct rest; [exact I | apply Hs].
    + destruct rest as [| r' rest']; [exact I|].
      right. exists (time r + 33). split; [|apply Hs].
      cbn [timers setThrottle resize postMessage]. rewrite Ht. reflexivity.
Qed.

(** C6: the throttle lets the leading resize through and nothing else for
    33 ms.  From an idle throttle, of the resizes that occur within the
    window the first one opens exactly that one is forwarded, and the
    release of the latch at the end of the window posts nothing; of resizes
    that each occur more than a window after the one before, every one is
    forwarded, in order. *)
Theorem resize_throttle (storage : Storage) (p : Page) :
  idle p ->
  (forall (r : Resized) (rest : list Resized),
      withinWindow (time r) rest ->
      posted (snd (run timerFirst (map resizeEvent (r :: rest)) (storage, p)))
      = (posted p ++ [resizeMessage r])%list
      /\ forall t,
          posted (runTimers timerFirst t
                    (snd (run timerFirst (map resizeEvent (r :: rest))
                            (storage, p))))
          = (posted p ++ [resizeMessage r])%list)
  /\ (forall rs : list Resized,
        beyondWindow rs ->
        posted (snd (run timerFirst (map resizeEvent rs) (storage, p)))
        = (posted p ++ map resizeMessage rs)%list
        /\ length (posted (snd (run timerFirst (map resizeEvent rs)
                                  (storage, p))))
           = (length (posted p) + length rs)%nat).
Proof.
  intros Hidle. split.
  - intros r rest Hrest.
    assert (E : posted (snd (run timerFirst (map resizeEvent (r :: rest))
                               (storage, p)))
                = (posted p ++ [resizeMessage r])%list).
    { cbn [map resizeEvent run dispatch fst snd].
      pose proof (runTimers_ready (time r) p (or_introl Hidle)) as [Hw Ht].
      unfold onResize, throttle. rewrite Hw. cbn [negb].
      rewrite run_latched with (t0 := time r).
      - cbn [snd posted setThrottle resize postMessage].
        rewrite runTimers_posted. reflexivity.
      - reflexivity.
      - cbn [timers setThrottle resize postMessage]. rewrite Ht.
        repeat constructor. cbn. lia.
      - exact Hrest. }
    split; [exact E|]. intros t. rewrite runTimers_posted. exact E.
  - intros rs Hrs.
    assert (E : posted (snd (run timerFirst (map resizeEvent rs) (storage, p)))
                = (posted p ++ map resizeMessage rs)%list).
    { apply run_spaced; [exact Hrs|]. destruct rs; [exact I|]. left. exact Hidle. }
    split; [exact E|]. rewrite E, length_app, length_map. reflexivity.
Qed.

End Throttle.

Lemma resize_throttle_witness :
  posted
    (snd (run true
            (map resizeEvent
               [ {| time := 0; width := 800; height := 600 |};
                 {| time := 10; width := 810; height := 600 |};
                 {| time := 32; width := 820; height := 600 |} ])
            (∅, loaded "Home" twoControls false)))
  = [ResizeMessage 800 600]
  /\ posted
       (snd (run true
               (map resizeEvent
                  [ {| time := 0; width := 800; height := 600 |};
                    {| time := 34; width := 810; height := 600 |};
                    {| time := 68; width := 820; height := 600 |} ])
               (∅, loaded "Home" twoControls false)))
     = [ResizeMessage 800 600; ResizeMessage 810 600; ResizeMessage 820 600].
Proof.
  destruct (resize_throttle true ∅ (loaded "Home" twoControls false))
    as (leading & spaced); [split; reflexivity|].
  split.
  - apply leading. repeat constructor; cbn; lia.
  - apply spaced. cbn. lia.
Defined.

(** *** Applying a preference *)

Lemma runTimers_title (timerFirst : bool) (now : Z) (p : Page) :
  title (runTimers timerFirst now p) = title p.
Proof. unfold runTimers. destruct (existsb _ _); reflexivity. Qed.

Lemma runTimers_pageTitle (timerFirst : bool) (now : Z) (p : Page) :
  pageTitle (runTimers timerFirst now p) = pageTitle p.
Proof. unfold runTimers. destruct (existsb _ _); reflexivity. Qed.

Lemma changeSnowAnimation_pageTitle (v : Value) (p : Page) :
  pageTitle (changeSnowAnimation v p) = pageTitle p.
Proof.
  unfold changeSnowAnimation.
  destruct (strictEqualsString v "none"); [reflexivity|].
  destruct (strictEqualsString v "snowfall"); reflexivity.
Qed.

Lemma getItem_setItem (storage : Storage) (key v : string) :
  getItem (setItem storage key v) key = Str v.
Proof. unfold getItem, setItem. rewrite lookup_insert_eq. reflexivity. Qed.

(** The title the script captures is the one the getter reads at load. *)
Lemma onload_pageTitle (engine : SelectorEngine) (now : Season.Date)
    (iw ih : Z) (storage : Storage)
    (documentTitle : string) (markup : list Control) (toggleHidden : bool)
    (p : Page) :
  onload engine now iw ih storage documentTitle markup toggleHidden
  = Normal p ->
  pageTitle p = stripAndCollapse documentTitle.
Proof.
  unfold onload. intros H.
  destruct (Season.getSeason now Season.noOptions) as [season | e];
    cbn [bind] in H; [|discriminate H].
  destruct (String.eqb season "Winter"); cbn [andb] in H.
  - destruct (truthy (getItem storage storageKey)).
    + destruct (getItem storage storageKey) as [ | | b | x | s | ob];
        cbn [bind] in H; try (injection H as <-; reflexivity).
      destruct (restoreControl engine s _) as [cs | e]; cbn [bind] in H;
        [|discriminate H].
      injection H as <-. cbn [pageTitle setHidden].
      rewrite changeSnowAnimation_pageTitle. reflexivity.
    + destruct (checkControl "snowfall" _) as [cs | e]; cbn [bind] in H;
        [|discriminate H].
      injection H as <-. reflexivity.
  - injection H as <-. reflexivity.
Qed.

(** The listeners leave the captured title as it is. *)
Lemma dispatch_pageTitle (timerFirst : bool) (now : Z) (e : Event)
    (w : Storage * Page) :
  pageTitle (snd (dispatch timerFirst now e w)) = pageTitle (snd w).
Proof.
  destruct w as [st p]. destruct e as [ | v | iw' ih'];
    unfold dispatch, onStorage, onChange; cbn [fst snd].
  - rewrite changeSnowAnimation_pageTitle. apply runTimers_pageTitle.
  - rewrite changeSnowAnimation_pageTitle. apply runTimers_pageTitle.
  - unfold onResize, throttle.
    destruct (negb (waiting (runTimers timerFirst now p)));
      [cbn [pageTitle setThrottle resize postMessage]|];
      apply runTimers_pageTitle.
Qed.

(** C7: the preference survives the round trip through the storage.  When
    the user picks "snowfall" on a page, the stored preference reads back
    as "snowfall", that page is left Running with the indicator before its
    original title, and so is any other page that receives the storage
    notification, which writes nothing back; when the user picks "none",
    it reads back as "none" and both pages are left Stopped under their
    original titles.  The original title is the one the getter of the
    document title read at load, no listener changes what the script
    captured, and the title with the indicator differs from the original
    and starts with the snowflake. *)
Theorem preference_round_trip :
  (forall (timerFirst : bool) (t t' : Z) (storage : Storage) (p q : Page),
      normalised (pageTitle p) -> normalised (pageTitle q) ->
      let w := dispatch timerFirst t (ChangeEvent "snowfall") (storage, p) in
      let w' := dispatch timerFirst t' StorageEvent (fst w, q) in
      getItem (fst w) storageKey = Str "snowfall"
      /\ animationState (posted (snd w)) = Running
      /\ title (snd w) = marked (pageTitle p)
      /\ animationState (posted (snd w')) = Running
      /\ title (snd w') = marked (pageTitle q)
      /\ fst w' = fst w)
  /\ (forall (timerFirst : bool) (t t' : Z) (storage : Storage) (p q : Page),
      normalised (pageTitle p) -> normalised (pageTitle q) ->
      let w := dispatch timerFirst t (ChangeEvent "none") (storage, p) in
      let w' := dispatch timerFirst t' StorageEvent (fst w, q) in
      getItem (fst w) storageKey = Str "none"
      /\ animationState (posted (snd w)) = Stopped
      /\ title (snd w) = pageTitle p
      /\ animationState (posted (snd w')) = Stopped
      /\ title (snd w') = pageTitle q
      /\ fst w' = fst w)
  /\ (forall engine now iw ih storage documentTitle markup toggleHidden p,
      onload engine now iw ih storage documentTitle markup toggleHidden
      = Normal p ->
      pageTitle p = stripAndCollapse documentTitle
      /\ normalised (pageTitle p))
  /\ (forall timerFirst now e w,
      pageTitle (snd (dispatch timerFirst now e w)) = pageTitle (snd w))
  /\ (forall t,
      marked t <> t /\ exists rest, marked t = String.append snowflake rest).
Proof.
  split; [|split; [|split; [|split; [exact dispatch_pageTitle
                                    | exact marked_shows]]]].
  - intros tf t t' storage p q Hp Hq w w'. subst w w'.
    unfold dispatch, onStorage, onChange; cbn [fst snd].
    rewrite getItem_setItem.
    rewrite !title_snowfall by (rewrite runTimers_pageTitle; assumption).
    rewrite !changeSnowAnimation_snowfall.
    cbn [posted setTitle start postMessage].
    rewrite !animationState_snoc, !runTimers_pageTitle.
    repeat split; reflexivity.
  - intros tf t t' storage p q Hp Hq w w'. subst w w'.
    unfold dispatch, onStorage, onChange; cbn [fst snd].
    rewrite getItem_setItem.
    rewrite !title_none by (rewrite runTimers_pageTitle; assumption).
    rewrite !changeSnowAnimation_none.
    cbn [posted setTitle stop postMessage].
    rewrite !animationState_snoc, !runTimers_pageTitle.
    repeat split; reflexivity.
  - intros engine now iw ih storage documentTitle markup toggleHidden p H.
    rewrite (onload_pageTitle _ _ _ _ _ _ _ _ _ H).
    split; [reflexivity | apply stripAndCollapse_idempotent].
Qed.

Lemma preference_round_trip_witness :
  title
    (snd (dispatch true 5 (ChangeEvent "snowfall")
            (∅, loaded " Home " twoControls false)))
  = marked (pageTitle (loaded " Home " twoControls false)).
Proof.
  destruct preference_round_trip as [snowfall _].
  destruct (snowfall true 5 0 ∅ (loaded " Home " twoControls false)
              (loaded "" twoControls false))
    as (_ & _ & T & _).
  - reflexivity.
  - reflexivity.
  - exact T.
Defined.

(** *** Values that are no preference *)

(** C10: applying a value other than "snowfall" and "none" changes nothing:
    [changeSnowAnimation] returns the page as it is, no message is posted
    and the title stays; in particular when the key is not in the storage
    and the storage notification reads [null]. *)
Theorem changeSnowAnimation_ignores_other_values :
  (forall (v : Value) (p : Page),
      v <> Str "snowfall" -> v <> Str "none" ->
      changeSnowAnimation v p = p)
  /\ changeSnowAnimation Null = (fun p => p)
  /\ (forall (storage : Storage) (p : Page),
      storage !! storageKey = None -> onStorage storage p = p)
  /\ (forall (timerFirst : bool) (t : Z) (storage : Storage) (p : Page),
      storage !! storageKey = None ->
      posted (snd (dispatch timerFirst t StorageEvent (storage, p)))
      = posted p
      /\ title (snd (dispatch timerFirst t StorageEvent (storage, p)))
         = title p
      /\ fst (dispatch timerFirst t StorageEvent (storage, p)) = storage).
Proof.
  assert (other : forall (v : Value) (p : Page),
             v <> Str "snowfall" -> v <> Str "none" ->
             changeSnowAnimation v p = p).
  { intros v p Hs Hn. unfold changeSnowAnimation.
    destruct v as [ | | b | x | s | ob]; try reflexivity.
    cbn [strictEqualsString].
    destruct (String.eqb_spec s "none") as [-> | _]; [contradiction|].
    destruct (String.eqb_spec s "snowfall") as [-> | _]; [contradiction|].
    reflexivity. }
  assert (removed : forall (storage : Storage) (p : Page),
             storage !! storageKey = None -> onStorage storage p = p).
  { intros storage p H. unfold onStorage, getItem. rewrite H. reflexivity. }
  split; [exact other|]. split; [reflexivity|]. split; [exact removed|].
  intros tf t storage p H. unfold dispatch; cbn [fst snd].
  rewrite (removed storage _ H), runTimers_posted, runTimers_title.
  repeat split; reflexivity.
Qed.

Lemma changeSnowAnimation_ignores_other_values_witness :
  changeSnowAnimation (Str "rain") (loaded "Home" twoControls false)
  = loaded "Home" twoControls false.
Proof.
  apply (proj1 changeSnowAnimation_ignores_other_values); discriminate.
Defined.

(** *** Invariants of the pages the script produces *)

Lemma changeSnowAnimation_throttle (v : Value) (p : Page) :
  waiting (changeSnowAnimation v p) = waiting p
  /\ timers (changeSnowAnimation v p) = timers p
  /\ controls (changeSnowAnimation v p) = controls p
  /\ hidden (changeSnowAnimation v p) = hidden p.
Proof.
  unfold changeSnowAnimation.
  destruct (strictEqualsString v "none"); [repeat split|].
  destruct (strictEqualsString v "snowfall"); repeat split.
Qed.

(** What [onload] returns is what it builds in one of its three branches. *)
Lemma onload_shape (engine : SelectorEngine) (now : Season.Date) (iw ih : Z) (storage : Storage)
    (documentTitle : string) (markup : list Control) (toggleHidden : bool)
    (p : Page) :
  onload engine now iw ih storage documentTitle markup toggleHidden = Normal p ->
  exists (b : bool) (q : Page),
    p = setHidden b q
    /\ ((exists v cs,
            q = changeSnowAnimation v
                  (setControls cs
                     (newSnowfallWorker iw ih
                        (loaded documentTitle markup toggleHidden))))
        \/ q = newSnowfallWorker iw ih
                 (loaded documentTitle markup toggleHidden)).
Proof.
  unfold onload. intros H.
  destruct (Season.getSeason now Season.noOptions) as [season | e];
    cbn [bind] in H; [|discriminate H].
  destruct (String.eqb season "Winter"); cbn [andb] in H.
  - destruct (truthy (getItem storage storageKey)).
    + destruct (getItem storage storageKey) as [ | | b | x | s | ob];
        cbn [bind] in H;
        try (injection H as <-; do 2 eexists; split; [reflexivity|];
             right; reflexivity).
      destruct (restoreControl engine s _) as [cs | e]; cbn [bind] in H;
        [|discriminate H].
      injection H as <-. do 2 eexists. split; [reflexivity|].
      left. do 2 eexists. reflexivity.
    + destruct (checkControl "snowfall" _) as [cs | e]; cbn [bind] in H;
        [|discriminate H].
      injection H as <-. do 2 eexists. split; [reflexivity|].
      left. do 2 eexists. reflexivity.
  - injection H as <-. do 2 eexists. split; [reflexivity|].
    right. reflexivity.
Qed.

Lemma onload_idle (engine : SelectorEngine) (now : Season.Date) (iw ih : Z) (storage : Storage)
    (documentTitle : string) (markup : list Control) (toggleHidden : bool)
    (p : Page) :
  onload engine now iw ih storage documentTitle markup toggleHidden = Normal p ->
  idle p.
Proof.
  intros H. destruct (onload_shape _ _ _ _ _ _ _ _ _ H)
    as (b & q & -> & [(v & cs & ->) | ->]); unfold idle;
    cbn [waiting timers setHidden].
  - destruct (changeSnowAnimation_throttle v
                (setControls cs
                   (newSnowfallWorker iw ih
                      (loaded documentTitle markup toggleHidden))))
      as (-> & -> & _). split; reflexivity.
  - split; reflexivity.
Qed.

Section Invariants.

Variable timerFirst : bool.

Lemma runTimers_invariant (now : Z) (p : Page) :
  throttleInvariant p -> throttleInvariant (runTimers timerFirst now p).
Proof.
  unfold throttleInvariant, idle, runTimers.
  intros [[Hw Ht] | (Hw & d & Ht)]; rewrite Ht; cbn [existsb List.filter].
  - left. split; assumption.
  - destruct (due timerFirst now d); cbn [orb negb].
    + left. split; reflexivity.
    + right. split; [exact Hw | exists d; exact Ht].
Qed.

Lemma changeSnowAnimation_invariant (v : Value) (p : Page) :
  throttleInvariant p -> throttleInvariant (changeSnowAnimation v p).
Proof.
  unfold throttleInvariant, idle.
  destruct (changeSnowAnimation_throttle v p) as (-> & -> & _). auto.
Qed.

Lemma onResize_invariant (now iw ih : Z) (p : Page) :
  throttleInvariant p -> throttleInvariant (onResize now iw ih p).
Proof.
  unfold throttleInvariant, idle, onResize, throttle.
  intros [[Hw Ht] | (Hw & d & Ht)]; rewrite Hw; cbn [negb].
  - right. cbn [waiting timers setThrottle resize postMessage].
    rewrite Ht. split; [reflexivity | eexists; reflexivity].
  - right. split; [exact Hw | exists d; exact Ht].
Qed.

Lemma dispatch_invariant (now : Z) (e : Event) (w : Storage * Page) :
  throttleInvariant (snd w) ->
  throttleInvariant (snd (dispatch timerFirst now e w)).
Proof.
  intros H. apply (runTimers_invariant now) in H.
  destruct w as [st p]. destruct e as [ | v | iw ih];
    unfold dispatch, onStorage, onChange; cbn [fst snd] in *.
  - apply changeSnowAnimation_invariant, H.
  - apply changeSnowAnimation_invariant, H.
  - apply onResize_invariant, H.
Qed.

Lemma run_invariant (events : list (Z * Event)) (w : Storage * Page) :
  throttleInvariant (snd w) ->
  throttleInvariant (snd (run timerFirst events w)).
Proof.
  revert w. induction events as [| [now e] rest IH]; intros w H;
    [exact H|].
  cbn [run]. apply IH, dispatch_invariant, H.
Qed.

End Invariants.

(** X7: the throttle never holds more than one timer.  On the page [onload]
    returns nothing is pending, and after any sequence of storage, change
    and resize events, at any times, either the latch is clear and no timer
    is pending or the latch is set and exactly one timer is. *)
Theorem throttle_single_timer (engine : SelectorEngine) (now : Season.Date) (iw ih : Z)
    (storage : Storage) (documentTitle : string) (markup : list Control)
    (toggleHidden : bool) (p : Page) :
  onload engine now iw ih storage documentTitle markup toggleHidden = Normal p ->
  idle p
  /\ forall (timerFirst : bool) (events : list (Z * Event)) (st : Storage),
      throttleInvariant (snd (run timerFirst events (st, p))).
Proof.
  intros H. pose proof (onload_idle _ _ _ _ _ _ _ _ _ H) as Hi.
  split; [exact Hi|]. intros tf events st.
  apply run_invariant. left. exact Hi.
Qed.

Lemma throttle_single_timer_witness :
  throttleInvariant
    (snd (run false
            [ (0, ResizeEvent 800 600); (5, StorageEvent);
              (40, ResizeEvent 640 480); (41, ChangeEvent "none") ]
            (∅, setHidden true
                  (newSnowfallWorker 1280 720
                     (loaded "Home" twoControls false))))).
Proof.
  apply (proj2 (throttle_single_timer strictEngine
                  (Season.ValidDate (Season.midnight 2024 7 4)) 1280 720 ∅
                  "Home" twoControls false _ eq_refl)).
Defined.

(** *** The rate of the forwarded resizes *)

Lemma resizeCount_snoc (inbox : list Message) (m : Message) :
  resizeCount (inbox ++ [m])
  = (resizeCount inbox + if isResizeMessage m then 1 else 0)%nat.
Proof.
  unfold resizeCount. rewrite List.filter_app, length_app. cbn [List.filter].
  destruct (isResizeMessage m); reflexivity.
Qed.

Lemma changeSnowAnimation_resizeCount (v : Value) (p : Page) :
  resizeCount (posted (changeSnowAnimation v p)) = resizeCount (posted p).
Proof.
  unfold changeSnowAnimation.
  destruct (strictEqualsString v "none");
    [cbn [posted setTitle stop postMessage]; rewrite resizeCount_snoc;
     cbn; lia|].
  destruct (strictEqualsString v "snowfall");
    [cbn [posted setTitle start postMessage]; rewrite resizeCount_snoc;
     cbn; lia|].
  reflexivity.
Qed.

Section Rate.

Variable timerFirst : bool.

(** While the only timer falls due after the window, no resize is
    forwarded in it. *)
Lemma run_latched_window (a d : Z) (events : list (Z * Event))
    (st : Storage) (p : Page) :
  waiting p = true -> timers p = [d] -> a + 33 <= d ->
  timesWithin a events ->
  resizeCount (posted (snd (run timerFirst events (st, p))))
  = resizeCount (posted p).
Proof.
  intros Hw Ht Hd Hev. revert st p Hw Ht.
  induction Hev as [| [now e] rest [_ Hnow] _ IH]; intros st p Hw Ht;
    [reflexivity|].
  cbn [fst] in Hnow. cbn [run]. unfold dispatch. cbn [fst snd].
  rewrite (runTimers_future timerFirst now p)
    by (rewrite Ht; repeat constructor; lia).
  destruct (changeSnowAnimation_throttle (getItem st storageKey) p)
    as (W1 & T1 & _).
  destruct e as [ | v | iw ih].
  - unfold onStorage. rewrite IH by congruence.
    apply changeSnowAnimation_resizeCount.
  - unfold onChange. cbn [fst snd].
    destruct (changeSnowAnimation_throttle (Str v) p) as (W2 & T2 & _).
    rewrite IH by congruence. apply changeSnowAnimation_resizeCount.
  - unfold onResize, throttle. rewrite Hw. cbn [negb].
    apply IH; assumption.
Qed.

Lemma run_window (a : Z) (events : list (Z * Event)) (st : Storage)
    (p : Page) :
  throttleInvariant p -> timesWithin a events ->
  (resizeCount (posted (snd (run timerFirst events (st, p))))
   <= resizeCount (posted p) + 1)%nat.
Proof.
  intros Hinv Hev. revert st p Hinv.
  induction Hev as [| [now e] rest Hnow Hrest IH]; intros st p Hinv;
    [cbn; lia|].
  cbn [fst] in Hnow. cbn [run]. unfold dispatch. cbn [fst snd].
  pose proof (runTimers_invariant timerFirst now p Hinv) as Hinv'.
  pose proof (runTimers_posted timerFirst now p) as Hp.
  destruct e as [ | v | iw ih].
  - unfold onStorage.
    etransitivity;
      [apply IH, changeSnowAnimation_invariant, Hinv'|].
    rewrite changeSnowAnimation_resizeCount, Hp. lia.
  - unfold onChange. cbn [fst snd].
    etransitivity;
      [apply IH, changeSnowAnimation_invariant, Hinv'|].
    rewrite changeSnowAnimation_resizeCount, Hp. lia.
  - unfold onResize, throttle.
    destruct Hinv' as [[Hw Ht] | (Hw & d & Ht)]; rewrite Hw; cbn [negb].
    + rewrite (run_latched_window a (now + 33) rest st); try assumption.
      * cbn [posted setThrottle resize postMessage].
        rewrite resizeCount_snoc, Hp. cbn. lia.
      * reflexivity.
      * cbn [timers setThrottle resize postMessage]. rewrite Ht. reflexivity.
      * lia.
    + etransitivity; [apply IH; right; split; [exact Hw | exists d; exact Ht]|].
      rewrite Hp. lia.
Qed.

(** A timer that is past due releases the latch. *)
Lemma runTimers_idle_after (now d : Z) (p : Page) :
  timers p = [d] -> d < now ->
  runTimers timerFirst now p = setThrottle false [] p.
Proof.
  intros Ht Hd. unfold runTimers. rewrite Ht. cbn [existsb List.filter].
  rewrite (due_past timerFirst now d Hd). reflexivity.
Qed.

Lemma run_app (l1 l2 : list (Z * Event)) (w : Storage * Page) :
  run timerFirst (l1 ++ l2) w = run timerFirst l2 (run timerFirst l1 w).
Proof.
  revert w. induction l1 as [| [now e] rest IH]; intros w; [reflexivity|].
  cbn [app run]. apply IH.
Qed.

End Rate.

(** X8: no 33 ms hold two forwarded resizes.  From a page whose throttle
    holds at most one timer (any page the script reaches), whatever the
    state of the latch, over any storage, change and resize events that all
    occur within 33 ms, at most one resize message is added to the inbox. *)
Theorem resize_rate_limit (timerFirst : bool) (a : Z)
    (events : list (Z * Event)) (st : Storage) (p : Page) :
  throttleInvariant p -> timesWithin a events ->
  (resizeCount (posted (snd (run timerFirst events (st, p))))
   <= resizeCount (posted p) + 1)%nat.
Proof. intros Hinv Hev. apply (run_window timerFirst a); assumption. Qed.

Lemma resize_rate_limit_witness :
  (resizeCount
     (posted
        (snd (run true
                [ (10, ResizeEvent 800 600); (20, ChangeEvent "snowfall");
                  (25, ResizeEvent 810 600); (42, ResizeEvent 820 600) ]%Z
                (∅, loaded "Home" twoControls false))))
   <= resizeCount (posted (loaded "Home" twoControls false)) + 1)%nat.
Proof.
  apply (resize_rate_limit true 10).
  - left. split; reflexivity.
  - repeat constructor; cbn; lia.
Defined.

(** X9: a dropped resize does not prolong the window.  From an idle
    throttle, after a forwarded resize and any number of resizes dropped in
    its window, a resize that occurs more than 33 ms after the forwarded
    one is forwarded, however soon after the last dropped one. *)
Theorem dropped_resizes_keep_window (timerFirst : bool) (storage : Storage)
    (p : Page) (r : Resized) (dropped : list Resized) (r' : Resized) :
  idle p ->
  withinWindow (time r) dropped ->
  time r + 33 < time r' ->
  posted
    (snd (run timerFirst (map resizeEvent (r :: dropped ++ [r']))
            (storage, p)))
  = (posted p ++ [resizeMessage r; resizeMessage r'])%list.
Proof.
  intros Hidle Hdrop Hlate.
  rewrite app_comm_cons, map_app, run_app.
  assert (E : run timerFirst (map resizeEvent (r :: dropped)) (storage, p)
              = (storage,
                 setThrottle true [time r + 33]
                   (resize (width r) (height r) p))).
  { cbn [map resizeEvent run]. unfold dispatch. cbn [fst snd].
    rewrite (runTimers_future timerFirst (time r) p)
      by (rewrite (proj2 Hidle); constructor).
    unfold onResize, throttle. rewrite (proj1 Hidle). cbn [negb].
    cbn [timers resize postMessage]. rewrite (proj2 Hidle). cbn [app].
    apply (run_latched timerFirst (time r)).
    - reflexivity.
    - repeat constructor. cbn. lia.
    - exact Hdrop. }
  rewrite E. cbn [map resizeEvent run]. unfold dispatch. cbn [fst snd].
  rewrite (runTimers_idle_after timerFirst (time r') (time r + 33))
    by (reflexivity || assumption).
  unfold onResize, throttle.
  cbn [waiting negb posted setThrottle resize postMessage].
  rewrite <- app_assoc. reflexivity.
Qed.

Lemma dropped_resizes_keep_window_witness :
  posted
    (snd (run false
            (map resizeEvent
               [ {| time := 0; width := 800; height := 600 |};
                 {| time := 16; width := 810; height := 600 |};
                 {| time := 32; width := 820; height := 600 |};
                 {| time := 34; width := 830; height := 600 |} ])
            (∅, loaded "Home" twoControls false)))
  = [ResizeMessage 800 600; ResizeMessage 830 600].
Proof.
  apply (dropped_resizes_keep_window false ∅
           (loaded "Home" twoControls false)
           {| time := 0; width := 800; height := 600 |}
           [ {| time := 16; width := 810; height := 600 |};
             {| time := 32; width := 820; height := 600 |} ]
           {| time := 34; width := 830; height := 600 |}).
  - split; reflexivity.
  - repeat constructor; cbn; lia.
  - cbn. lia.
Defined.

(** *** The title and the animation *)

Lemma changeSnowAnimation_consistent (v : Value) (p : Page) :
  titleConsistent p -> titleConsistent (changeSnowAnimation v p).
Proof.
  unfold titleConsistent. intros [Hn H].
  rewrite changeSnowAnimation_pageTitle. split; [exact Hn|].
  unfold changeSnowAnimation.
  destruct (strictEqualsString v "none").
  - right. cbn [posted title setTitle stop postMessage].
    rewrite animationState_snoc. split; [reflexivity | exact Hn].
  - destruct (strictEqualsString v "snowfall"); [|exact H].
    left. cbn [posted title setTitle start postMessage].
    rewrite animationState_snoc.
    split; [reflexivity | apply stripAndCollapse_indicator, Hn].
Qed.

Lemma dispatch_consistent (timerFirst : bool) (now : Z) (e : Event)
    (w : Storage * Page) :
  titleConsistent (snd w) ->
  titleConsistent (snd (dispatch timerFirst now e w)).
Proof.
  destruct w as [st p]. cbn [snd]. intros H.
  assert (H' : titleConsistent (runTimers timerFirst now p)).
  { unfold titleConsistent.
    rewrite runTimers_posted, runTimers_title, runTimers_pageTitle. exact H. }
  destruct e as [ | v | iw ih]; unfold dispatch, onStorage, onChange;
    cbn [fst snd].
  - apply changeSnowAnimation_consistent, H'.
  - apply changeSnowAnimation_consistent, H'.
  - unfold onResize, throttle.
    destruct (negb (waiting (runTimers timerFirst now p))); [|exact H'].
    unfold titleConsistent in *.
    cbn [posted title pageTitle setThrottle resize postMessage].
    rewrite animationState_snoc. exact H'.
Qed.

Lemma run_consistent (timerFirst : bool) (events : list (Z * Event))
    (w : Storage * Page) :
  titleConsistent (snd w) ->
  titleConsistent (snd (run timerFirst events w)).
Proof.
  revert w. induction events as [| [now e] rest IH]; intros w H; [exact H|].
  cbn [run]. apply IH, dispatch_consistent, H.
Qed.

Lemma onload_consistent (engine : SelectorEngine) (now : Season.Date)
    (iw ih : Z) (storage : Storage)
    (documentTitle : string) (markup : list Control) (toggleHidden : bool)
    (p : Page) :
  onload engine now iw ih storage documentTitle markup toggleHidden
  = Normal p ->
  titleConsistent p.
Proof.
  intros H.
  assert (B : forall cs,
             titleConsistent
               (setControls cs
                  (newSnowfallWorker iw ih
                     (loaded documentTitle markup toggleHidden)))).
  { intros cs. split; [apply stripAndCollapse_idempotent|].
    right. split; reflexivity. }
  destruct (onload_shape _ _ _ _ _ _ _ _ _ H)
    as (b & q & -> & [(v & cs & ->) | ->]).
  - exact (changeSnowAnimation_consistent v _ (B cs)).
  - exact (B markup).
Qed.

Lemma run_pageTitle (timerFirst : bool) (events : list (Z * Event))
    (w : Storage * Page) :
  pageTitle (snd (run timerFirst events w)) = pageTitle (snd w).
Proof.
  revert w. induction events as [| [now e] rest IH]; intros w; [reflexivity|].
  cbn [run]. rewrite IH. apply dispatch_pageTitle.
Qed.

(** X10: the title tells the state of the animation.  On the page [onload]
    returns and after any sequence of events on it, the document title
    carries the indicator before the title the getter read at load (as the
    snowflake, a space and that title, or as the snowflake alone when that
    title is empty) exactly when the last command sent to the worker was
    [start], and it is that title itself exactly when no command or [stop]
    was; the indicator is never added twice. *)
Theorem title_follows_animation (engine : SelectorEngine)
    (now : Season.Date) (iw ih : Z)
    (storage : Storage) (documentTitle : string) (markup : list Control)
    (toggleHidden : bool) (p : Page) :
  onload engine now iw ih storage documentTitle markup toggleHidden
  = Normal p ->
  forall (timerFirst : bool) (events : list (Z * Event)) (st : Storage),
    (title (snd (run timerFirst events (st, p)))
     = marked (stripAndCollapse documentTitle)
     <-> animationState (posted (snd (run timerFirst events (st, p))))
         = Running)
    /\ (title (snd (run timerFirst events (st, p)))
        = stripAndCollapse documentTitle
        <-> animationState (posted (snd (run timerFirst events (st, p))))
            = Stopped).
Proof.
  intros H tf events st.
  pose proof (run_consistent tf events (st, p)
                (onload_consistent _ _ _ _ _ _ _ _ _ H)) as [_ C].
  pose proof (run_pageTitle tf events (st, p)) as T. cbn [snd] in T.
  rewrite (onload_pageTitle _ _ _ _ _ _ _ _ _ H) in T.
  rewrite T in C.
  destruct (marked_shows (stripAndCollapse documentTitle)) as [N _].
  destruct C as [[-> ->] | [-> ->]]; split; split; intros E;
    try reflexivity; try discriminate E; congruence.
Qed.

Lemma title_follows_animation_witness :
  title
    (snd (run true
            [ (3, ChangeEvent "snowfall"); (9, ChangeEvent "snowfall");
              (12, ResizeEvent 800 600) ]
            (∅, setHidden true
                  (newSnowfallWorker 1280 720
                     (loaded "" twoControls false)))))
  = marked (stripAndCollapse "").
Proof.
  apply (title_follows_animation strictEngine
           (Season.ValidDate (Season.midnight 2024 7 4)) 1280 720 ∅
           "" twoControls false _ eq_refl true).
  reflexivity.
Defined.

(** *** What the listeners write *)

(** X11: the script writes one storage key and never removes it.  After any
    sequence of events every key other than "snow" holds what it held, and
    "snow" holds the value of the last change event, or what it held when
    there was none: storage and resize events write nothing. *)
Theorem storage_written_by_change_only (timerFirst : bool)
    (events : list (Z * Event)) (st : Storage) (p : Page) :
  (forall k : string,
      k <> storageKey ->
      fst (run timerFirst events (st, p)) !! k = st !! k)
  /\ fst (run timerFirst events (st, p)) !! storageKey
     = storedAfter events (st !! storageKey).
Proof.
  revert st p. induction events as [| [now e] rest IH]; intros st p;
    [split; reflexivity|].
  cbn [run]. unfold storedAfter. cbn [fold_left snd].
  fold (storedAfter rest).
  destruct e as [ | v | iw ih]; unfold dispatch, onChange; cbn [fst snd];
    match goal with
    | |- context [run timerFirst rest (?st', ?p')] =>
        destruct (IH st' p') as [IHk IHs]
    end.
  - split; assumption.
  - split.
    + intros k Hk. rewrite (IHk k Hk). unfold setItem.
      apply lookup_insert_ne. congruence.
    + rewrite IHs. unfold setItem. rewrite lookup_insert_eq. reflexivity.
  - split; assumption.
Qed.

Lemma changeSnowAnimation_posted (v : Value) (p : Page) :
  exists extra,
    posted (changeSnowAnimation v p) = (posted p ++ extra)%list
    /\ ~ In CanvasMessage extra.
Proof.
  unfold changeSnowAnimation.
  destruct (strictEqualsString v "none").
  - exists [StopMessage]. split; [reflexivity|].
    intros [H | []]; discriminate H.
  - destruct (strictEqualsString v "snowfall").
    + exists [StartMessage]. split; [reflexivity|].
      intros [H | []]; discriminate H.
    + exists []. split; [symmetry; apply app_nil_r | intros []].
Qed.

Lemma dispatch_posted (timerFirst : bool) (now : Z) (e : Event)
    (w : Storage * Page) :
  exists extra,
    posted (snd (dispatch timerFirst now e w)) = (posted (snd w) ++ extra)%list
    /\ ~ In CanvasMessage extra.
Proof.
  destruct w as [st p]. cbn [snd].
  destruct e as [ | v | iw ih]; unfold dispatch, onStorage, onChange;
    cbn [fst snd].
  - destruct (changeSnowAnimation_posted (getItem st storageKey)
                (runTimers timerFirst now p)) as (extra & E & N).
    exists extra. rewrite E, runTimers_posted. auto.
  - destruct (changeSnowAnimation_posted (Str v)
                (runTimers timerFirst now p)) as (extra & E & N).
    exists extra. rewrite E, runTimers_posted. auto.
  - unfold onResize, throttle.
    destruct (negb (waiting (runTimers timerFirst now p))).
    + exists [ResizeMessage iw ih].
      cbn [posted setThrottle resize postMessage]. rewrite runTimers_posted.
      split; [reflexivity | intros [H | []]; discriminate H].
    + exists []. rewrite runTimers_posted.
      split; [symmetry; apply app_nil_r | intros []].
Qed.

Lemma run_posted (timerFirst : bool) (events : list (Z * Event))
    (w : Storage * Page) :
  exists extra,
    posted (snd (run timerFirst events w)) = (posted (snd w) ++ extra)%list
    /\ ~ In CanvasMessage extra.
Proof.
  revert w. induction events as [| [now e] rest IH]; intros w.
  - exists []. split; [symmetry; apply app_nil_r | intros []].
  - cbn [run]. destruct (IH (dispatch timerFirst now e w)) as (x2 & E2 & N2).
    destruct (dispatch_posted timerFirst now e w) as (x1 & E1 & N1).
    exists (x1 ++ x2)%list. rewrite E2, E1, <- app_assoc.
    split; [reflexivity|]. rewrite in_app_iff. tauto.
Qed.

(** X12: the canvas is handed to the worker once, first.  On the page
    [onload] returns and after any sequence of events on it, the inbox of
    the worker starts with the canvas message and the resize message that
    carries the dimensions at load, no later message is a canvas message,
    and no message is ever taken back. *)
Theorem canvas_transferred_once (engine : SelectorEngine) (now : Season.Date) (iw ih : Z)
    (storage : Storage) (documentTitle : string) (markup : list Control)
    (toggleHidden : bool) (p : Page) :
  onload engine now iw ih storage documentTitle markup toggleHidden = Normal p ->
  forall (timerFirst : bool) (events : list (Z * Event)) (st : Storage),
  exists atLoad later,
    posted p = CanvasMessage :: ResizeMessage iw ih :: atLoad
    /\ posted (snd (run timerFirst events (st, p)))
       = CanvasMessage :: ResizeMessage iw ih :: (atLoad ++ later)%list
    /\ ~ In CanvasMessage (atLoad ++ later)%list.
Proof.
  intros H tf events st.
  assert (L : exists atLoad,
             posted p = CanvasMessage :: ResizeMessage iw ih :: atLoad
             /\ ~ In CanvasMessage atLoad).
  { destruct (onload_shape _ _ _ _ _ _ _ _ _ H)
      as (b & q & -> & [(v & cs & ->) | ->]); cbn [posted setHidden].
    - destruct (changeSnowAnimation_posted v
                  (setControls cs
                     (newSnowfallWorker iw ih
                        (loaded documentTitle markup toggleHidden))))
        as (extra & -> & N).
      exists extra. split; [reflexivity | exact N].
    - exists []. split; [reflexivity | intros []]. }
  destruct L as (atLoad & E & N).
  destruct (run_posted tf events (st, p)) as (later & E' & N').
  cbn [snd] in E'. exists atLoad, later. split; [exact E|].
  split; [rewrite E', E; reflexivity|].
  rewrite in_app_iff. tauto.
Qed.

Lemma canvas_transferred_once_witness :
  exists atLoad later,
    posted
      (setHidden true
         (newSnowfallWorker 1280 720 (loaded "Home" twoControls false)))
    = CanvasMessage :: ResizeMessage 1280 720 :: atLoad
    /\ posted
         (snd (run true [ (7, ChangeEvent "snowfall") ]
                 (∅, setHidden true
                       (newSnowfallWorker 1280 720
                          (loaded "Home" twoControls false)))))
       = CanvasMessage :: ResizeMessage 1280 720 :: (atLoad ++ later)%list
    /\ ~ In CanvasMessage (atLoad ++ later)%list.
Proof.
  apply (canvas_transferred_once strictEngine
           (Season.ValidDate (Season.midnight 2024 7 4)) 1280 720 ∅
           "Home" twoControls false _ eq_refl true).
Defined.

(** No listener assigns the checked state of a control or the hidden flag
    of the toggle. *)
Lemma run_controls_unwritten (timerFirst : bool)
    (events : list (Z * Event)) (st : Storage) (p : Page) :
  controls (snd (run timerFirst events (st, p))) = controls p
  /\ hidden (snd (run timerFirst events (st, p))) = hidden p.
Proof.
  revert st p. induction events as [| [now e] rest IH]; intros st p;
    [split; reflexivity|].
  cbn [run].
  assert (K : controls (snd (dispatch timerFirst now e (st, p))) = controls p
              /\ hidden (snd (dispatch timerFirst now e (st, p))) = hidden p).
  { assert (R : controls (runTimers timerFirst now p) = controls p
                /\ hidden (runTimers timerFirst now p) = hidden p).
    { unfold runTimers. destruct (existsb _ _); split; reflexivity. }
    destruct R as [Rc Rh].
    destruct e as [ | v | iw ih]; unfold dispatch, onStorage, onChange;
      cbn [fst snd].
    - destruct (changeSnowAnimation_throttle (getItem st storageKey)
                  (runTimers timerFirst now p)) as (_ & _ & -> & ->). auto.
    - destruct (changeSnowAnimation_throttle (Str v)
                  (runTimers timerFirst now p)) as (_ & _ & -> & ->). auto.
    - unfold onResize, throttle.
      destruct (negb (waiting (runTimers timerFirst now p))); auto. }
  destruct (dispatch timerFirst now e (st, p)) as [st' p'].
  cbn [snd] in K. destruct (IH st' p') as [-> ->]. exact K.
Qed.

(** X13: a preference that arrives from another page does not reach the
    controls.  Over any sequence of storage notifications and resizes, the
    controls keep the checked state and the toggle the hidden flag they
    had, even when a notification starts or stops the animation. *)
Theorem storage_events_keep_controls (timerFirst : bool)
    (events : list (Z * Event)) (st : Storage) (p : Page) :
  noUserChange events ->
  controls (snd (run timerFirst events (st, p))) = controls p
  /\ hidden (snd (run timerFirst events (st, p))) = hidden p.
Proof. intros _. apply run_controls_unwritten. Qed.

Lemma storage_events_keep_controls_witness :
  controls
    (snd (run true [ (4, StorageEvent); (9, ResizeEvent 800 600) ]
            ({[ storageKey := "snowfall" ]},
             loaded "Home" twoControls false)))
  = twoControls
  /\ animationState
       (posted
          (snd (run true [ (4, StorageEvent); (9, ResizeEvent 800 600) ]
                  ({[ storageKey := "snowfall" ]},
                   loaded "Home" twoControls false))))
     = Running.
Proof.
  split.
  - apply (storage_events_keep_controls true
             [ (4, StorageEvent); (9, ResizeEvent 800 600) ]
             {[ storageKey := "snowfall" ]}
             (loaded "Home" twoControls false)).
    repeat constructor; discriminate.
  - cbn [run]. unfold dispatch, onStorage, getItem. cbn [fst snd].
    rewrite lookup_singleton_eq. reflexivity.
Defined.

(** *** Loading in winter without a preference *)

Lemma checkControl_missing (v : string) (cs : list Control) :
  ~ offers v cs -> checkControl v cs = Throw TypeError.
Proof.
  unfold offers, selected. induction cs as [| c rest IH]; intros H;
    [reflexivity|].
  cbn [checkControl find] in *.
  destruct (String.eqb (value c) v); [exfalso; apply H; eauto|].
  rewrite (IH H). reflexivity.
Qed.

(** X14: in winter, a stored preference that is the empty string counts as
    none.  With the key absent or holding "", [onload] checks the control
    of "snowfall", starts the animation and puts the indicator before the
    title the getter read when the markup offers that control, and throws a
    [TypeError] when it does not. *)
Theorem onload_default_needs_control (engine : SelectorEngine)
    (now : Season.Date) (iw ih : Z)
    (storage : Storage) (documentTitle : string) (markup : list Control)
    (toggleHidden : bool) :
  isWinter now ->
  storage !! storageKey = None \/ storage !! storageKey = Some "" ->
  (offers "snowfall" markup ->
   exists p,
     onload engine now iw ih storage documentTitle markup toggleHidden
     = Normal p
     /\ isChecked "snowfall" (controls p)
     /\ posted p = [CanvasMessage; ResizeMessage iw ih; StartMessage]
     /\ title p = marked (stripAndCollapse documentTitle)
     /\ hidden p = false)
  /\ (~ offers "snowfall" markup ->
      onload engine now iw ih storage documentTitle markup toggleHidden
      = Throw TypeError).
Proof.
  unfold isWinter, onload, getItem. intros -> Hs.
  cbn [bind controls newSnowfallWorker resize postMessage].
  change (controls (loaded documentTitle markup toggleHidden)) with markup.
  assert (T : truthy match storage !! storageKey with
                     | Some s => Str s
                     | None => Null
                     end = false)
    by (destruct Hs as [-> | ->]; reflexivity).
  rewrite T. cbn [String.eqb Ascii.eqb Bool.eqb andb negb].
  split.
  - intros Ho. destruct (checkControl_offered _ _ Ho) as (cs & -> & C).
    cbn [bind]. eexists. split; [reflexivity|].
    cbn [controls hidden posted title setHidden].
    split; [exact C|]. split; [reflexivity|]. split; [|reflexivity].
    rewrite title_snowfall by apply loaded_normalised. reflexivity.
  - intros Ho. rewrite (checkControl_missing _ _ Ho). reflexivity.
Qed.

Lemma onload_default_needs_control_witness :
  onload strictEngine (Season.ValidDate (Season.midnight 2025 1 15)) 1280 720
    {[ storageKey := "" ]} "Home"
    [ {| value := "none"; checked := false |} ] false
  = Throw TypeError.
Proof.
  apply (onload_default_needs_control strictEngine
           (Season.ValidDate (Season.midnight 2025 1 15)) 1280 720
           {[ storageKey := "" ]} "Home"
           [ {| value := "none"; checked := false |} ] false).
  - reflexivity.
  - right. apply lookup_singleton_eq.
  - intros (c & H). discriminate H.
Defined.

End SnowProofs.
